(** * Persistence models: users, sections and the stock game

    A shallow embedding of [model/user.py] (and of the older [model/users.py])
    together with the properties of their operations.  Python objects are
    records, the database session is explicit state, exceptions are a result
    type, and the current date is an argument of whatever reads it. *)

From Stdlib Require Import ZArith List String Bool Lia.
Import ListNotations.
Open Scope string_scope.
Open Scope list_scope.
Open Scope Z_scope.

(** ** Python values, exceptions *)

(** [datetime.date]: what [date.today()] returns. *)
Record date := mkdate { year : Z; month : Z; day : Z }.

(** The dynamically typed values the models store and return; [PObject] stands
    for any other object (a bound method, a related row). *)
#[warnings="-register-all"]
Inductive pyval :=
| PNone
| PBool (b : bool)
| PInt (n : Z)
| PStr (s : string)
| PDate (d : date)
| PList (l : list pyval)
| PDict (d : list (string * pyval))
| PObject (repr : string).

(** The exceptions raised in the models. *)
Inductive exn :=
| AttributeError (cls attr : string)
| ValueError (msg : string)
| IntegrityError.

Inductive result (A : Type) :=
| Ok (a : A)
| Raise (e : exn).
Arguments Ok {A} a.
Arguments Raise {A} e.

(** [x is not None] *)
Definition is_not_None (x : pyval) : bool :=
  match x with PNone => false | _ => true end.

(** [isinstance(x, int)]; [bool] is a subclass of [int]. *)
Definition isinstance_int (x : pyval) : bool :=
  match x with PInt _ | PBool _ => true | _ => false end.

(** [x > 0] for an [x] that passed [isinstance(x, int)]; [True] counts as 1. *)
Definition gt_0 (x : pyval) : bool :=
  match x with PInt n => 0 <? n | PBool b => b | _ => false end.

(** [len(s) > 0] on a string. *)
Definition len_gt_0 (s : string) : bool := (0 <? String.length s)%nat.

Definition of_option_Z (o : option Z) : pyval :=
  match o with Some n => PInt n | None => PNone end.

Definition of_option_str (o : option string) : pyval :=
  match o with Some s => PStr s | None => PNone end.

(** [a == b] on primary keys, where [None == None]. *)
Definition eqb_id (a b : option Z) : bool :=
  match a, b with
  | Some x, Some y => x =? y
  | None, None => true
  | _, _ => false
  end.

(** ** The mapped classes, one record per table row *)

Record Section := mkSection {
  Section_id : option Z;
  Section__name : string;
  Section__abbreviation : string }.

(** A row of [user_sections]: the user it belongs to (by primary key), the
    section it points at and the enrollment year. *)
Record UserSection := mkUserSection {
  UserSection_user : option Z;
  UserSection_section : Section;
  UserSection_year : Z }.

Record User := mkUser {
  User_id : option Z;
  User__name : string;
  User__uid : string;
  User__password : string;
  User__role : string;
  User__pfp : option string;
  User_kasm_server_needed : bool }.

Record Stocks := mkStocks {
  Stocks_id : option Z;
  Stocks__symbol : string;
  Stocks__company : string;
  Stocks__quantity : pyval;
  Stocks__sheesh : pyval }.

Record StockUser := mkStockUser {
  StockUser_id : option Z;
  StockUser__user_id : string;
  StockUser__stockmoney : pyval;
  StockUser__accountdate : date }.

Record Transactions := mkTransactions {
  Transactions_id : option Z;
  Transactions__user_id : pyval;
  Transactions__transaction_type : string;
  Transactions__quantity : pyval;
  Transactions__transaction_date : date }.

(** [_transaction_time] is filled in by the database default and is left out. *)
Record User_Transaction_Stocks := mkUser_Transaction_Stocks {
  UTS__user_id : option Z;
  UTS__transaction_id : option Z;
  UTS__stock_id : option Z;
  UTS__quantity : pyval;
  UTS__price_per_stock : pyval;
  UTS__transaction_amount : pyval }.

(** ** UserSection *)

(** [UserSection.set_year_based_on_enrollment]: the value assigned to [self.year]. *)
Definition set_year_based_on_enrollment (today : date) : Z :=
  let current_month := month today in
  let current_year := year today in
  if (7 <=? current_month) && (current_month <=? 12)
  then current_year + 1
  else current_year.

(** [UserSection.__init__(self, user, section)] *)
Definition UserSection__init__ (today : date) (user : User) (section : Section)
  : UserSection :=
  {| UserSection_user := User_id user;
     UserSection_section := section;
     UserSection_year := set_year_based_on_enrollment today |}.

(** ** The database and its session *)

Record DB := mkDB {
  users : list User;
  sections : list Section;
  user_sections : list UserSection;
  stocks : list Stocks;
  stockuser : list StockUser;
  stock_transactions : list Transactions;
  user_transaction_stocks : list User_Transaction_Stocks }.

Definition empty_db : DB := mkDB [] [] [] [] [] [] [].

(** [db.session]: the rows as last committed, the rows as the open transaction
    sees them, and which session of the registry this is ([remove] discards
    the current one). *)
Record Session := mkSession {
  committed : DB;
  working : DB;
  generation : nat }.

Definition clean (s : Session) : Prop := working s = committed s.

(** *** Constraints checked when a transaction commits *)

Fixpoint nodupb {A : Type} (eqb : A -> A -> bool) (l : list A) : bool :=
  match l with
  | [] => true
  | x :: l' => negb (existsb (eqb x) l') && nodupb eqb l'
  end.

Definition is_some {A : Type} (o : option A) : bool :=
  match o with Some _ => true | None => false end.

(** An integer primary key: set and distinct in every row. *)
Definition pk_ok (ids : list (option Z)) : bool :=
  forallb is_some ids && nodupb eqb_id ids.

Definition UserSection_key (r : UserSection) : option Z * option Z :=
  (UserSection_user r, Section_id (UserSection_section r)).

Definition eqb_key2 (a b : option Z * option Z) : bool :=
  eqb_id (fst a) (fst b) && eqb_id (snd a) (snd b).

Definition UTS_key (r : User_Transaction_Stocks) : option Z * (option Z * option Z) :=
  (UTS__user_id r, (UTS__transaction_id r, UTS__stock_id r)).

Definition eqb_key3 (a b : option Z * (option Z * option Z)) : bool :=
  eqb_id (fst a) (fst b) && eqb_key2 (snd a) (snd b).

(** Primary keys, [unique=True] and [nullable=False] of the column
    declarations. *)
Definition integrity (d : DB) : bool :=
  pk_ok (map User_id (users d))
  && nodupb String.eqb (map User__uid (users d))
  && pk_ok (map Section_id (sections d))
  && nodupb String.eqb (map Section__abbreviation (sections d))
  && nodupb eqb_key2 (map UserSection_key (user_sections d))
  && pk_ok (map Stocks_id (stocks d))
  && forallb (fun r => is_not_None (Stocks__quantity r) && is_not_None (Stocks__sheesh r))
       (stocks d)
  && pk_ok (map StockUser_id (stockuser d))
  && forallb (fun r => is_not_None (StockUser__stockmoney r)) (stockuser d)
  && pk_ok (map Transactions_id (stock_transactions d))
  && forallb (fun r => is_not_None (Transactions__user_id r)
                       && is_not_None (Transactions__quantity r))
       (stock_transactions d)
  && nodupb eqb_key3 (map UTS_key (user_transaction_stocks d))
  && forallb (fun r => is_some (UTS__user_id r) && is_some (UTS__transaction_id r)
                       && is_some (UTS__stock_id r) && is_not_None (UTS__quantity r)
                       && is_not_None (UTS__price_per_stock r)
                       && is_not_None (UTS__transaction_amount r))
       (user_transaction_stocks d).

(** *** The monad of session operations *)

Definition M (A : Type) : Type := Session -> result A * Session.

Definition ret {A : Type} (a : A) : M A := fun s => (Ok a, s).

Definition bind {A B : Type} (m : M A) (k : A -> M B) : M B :=
  fun s => match m s with
           | (Ok a, s') => k a s'
           | (Raise e, s') => (Raise e, s')
           end.

Definition raise {A : Type} (e : exn) : M A := fun s => (Raise e, s).

(** [try: m  except ...: h e]; the handler answers [None] for an exception it
    does not catch. *)
Definition try_except {A : Type} (m : M A) (h : exn -> option (M A)) : M A :=
  fun s => match m s with
           | (Ok a, s') => (Ok a, s')
           | (Raise e, s') =>
               match h e with
               | Some k => k s'
               | None => (Raise e, s')
               end
           end.

Declare Scope session_scope.
Delimit Scope session_scope with session.
Notation "x <- m ;; k" := (bind m (fun x => k))
  (at level 61, m at next level, right associativity) : session_scope.
Notation "m ;;; k" := (bind m (fun _ => k))
  (at level 61, right associativity) : session_scope.
Open Scope session_scope.

(** [db.session.commit()] *)
Definition commit : M unit :=
  fun s => if integrity (working s)
           then (Ok tt, mkSession (working s) (working s) (generation s))
           else (Raise IntegrityError, s).

(** [db.session.rollback()] *)
Definition rollback : M unit :=
  fun s => (Ok tt, mkSession (committed s) (committed s) (generation s)).

(** [db.session.remove()]: the session is closed, which ends its transaction,
    and the registry hands out a new one. *)
Definition remove : M unit :=
  fun s => (Ok tt, mkSession (committed s) (committed s) (S (generation s))).

(** *** What [db.Model] gives every mapped class *)

Definition next_id (ids : list (option Z)) : Z :=
  1 + fold_right (fun o m => match o with Some n => Z.max n m | None => m end) 0 ids.

Class Model (Row : Type) := {
  table : DB -> list Row;
  with_table : list Row -> DB -> DB;
  (** do the two objects stand for the same row (same primary key) *)
  same_row : Row -> Row -> bool;
  (** the object as the INSERT leaves it *)
  flush : list Row -> Row -> Row }.

Definition flush_id (id : option Z) (ids : list (option Z)) : option Z :=
  match id with Some n => Some n | None => Some (next_id ids) end.

#[export] Instance Model_User : Model User := {
  table := users;
  with_table := fun l d =>
    mkDB l (sections d) (user_sections d) (stocks d) (stockuser d)
      (stock_transactions d) (user_transaction_stocks d);
  same_row := fun a b => is_some (User_id a) && eqb_id (User_id a) (User_id b);
  flush := fun l r =>
    mkUser (flush_id (User_id r) (map User_id l)) (User__name r) (User__uid r)
      (User__password r) (User__role r) (User__pfp r) (User_kasm_server_needed r) }.

#[export] Instance Model_Section : Model Section := {
  table := sections;
  with_table := fun l d =>
    mkDB (users d) l (user_sections d) (stocks d) (stockuser d)
      (stock_transactions d) (user_transaction_stocks d);
  same_row := fun a b => is_some (Section_id a) && eqb_id (Section_id a) (Section_id b);
  flush := fun l r =>
    mkSection (flush_id (Section_id r) (map Section_id l)) (Section__name r)
      (Section__abbreviation r) }.

#[export] Instance Model_UserSection : Model UserSection := {
  table := user_sections;
  with_table := fun l d =>
    mkDB (users d) (sections d) l (stocks d) (stockuser d)
      (stock_transactions d) (user_transaction_stocks d);
  same_row := fun _ _ => false;
  flush := fun _ r => r }.

#[export] Instance Model_Stocks : Model Stocks := {
  table := stocks;
  with_table := fun l d =>
    mkDB (users d) (sections d) (user_sections d) l (stockuser d)
      (stock_transactions d) (user_transaction_stocks d);
  same_row := fun a b => is_some (Stocks_id a) && eqb_id (Stocks_id a) (Stocks_id b);
  flush := fun l r =>
    mkStocks (flush_id (Stocks_id r) (map Stocks_id l)) (Stocks__symbol r)
      (Stocks__company r) (Stocks__quantity r) (Stocks__sheesh r) }.

#[export] Instance Model_StockUser : Model StockUser := {
  table := stockuser;
  with_table := fun l d =>
    mkDB (users d) (sections d) (user_sections d) (stocks d) l
      (stock_transactions d) (user_transaction_stocks d);
  same_row := fun a b => is_some (StockUser_id a) && eqb_id (StockUser_id a) (StockUser_id b);
  flush := fun l r =>
    mkStockUser (flush_id (StockUser_id r) (map StockUser_id l)) (StockUser__user_id r)
      (StockUser__stockmoney r) (StockUser__accountdate r) }.

#[export] Instance Model_Transactions : Model Transactions := {
  table := stock_transactions;
  with_table := fun l d =>
    mkDB (users d) (sections d) (user_sections d) (stocks d) (stockuser d)
      l (user_transaction_stocks d);
  same_row := fun a b => is_some (Transactions_id a) && eqb_id (Transactions_id a) (Transactions_id b);
  flush := fun l r =>
    mkTransactions (flush_id (Transactions_id r) (map Transactions_id l))
      (Transactions__user_id r) (Transactions__transaction_type r)
      (Transactions__quantity r) (Transactions__transaction_date r) }.

#[export] Instance Model_User_Transaction_Stocks : Model User_Transaction_Stocks := {
  table := user_transaction_stocks;
  with_table := fun l d =>
    mkDB (users d) (sections d) (user_sections d) (stocks d) (stockuser d)
      (stock_transactions d) l;
  same_row := fun _ _ => false;
  flush := fun _ r => r }.

(** [db.session.add(obj)]: nothing to do for an object that is a row already;
    a new object becomes a pending row of its table.  The answer is the object
    as the session now holds it. *)
Definition session_add {Row : Type} `{Model Row} (obj : Row) : M Row :=
  fun s =>
    let rows := table (working s) in
    if existsb (same_row obj) rows then (Ok obj, s)
    else
      let obj' := flush rows obj in
      (Ok obj',
       mkSession (committed s) (with_table (rows ++ [obj']) (working s)) (generation s)).

(** The rows as the open transaction sees them ([Model.query], a loaded
    relationship). *)
Definition get_db : M DB := fun s => (Ok (working s), s).

(** An attribute assignment on an object the session holds: its row now
    carries the new values. *)
Definition session_dirty {Row : Type} `{Model Row} (obj : Row) : M unit :=
  fun s =>
    let rows := table (working s) in
    (Ok tt,
     mkSession (committed s)
       (with_table (map (fun r => if same_row obj r then obj else r) rows) (working s))
       (generation s)).

(** Attribute lookups that may fail, outside any session. *)
Definition rbind {A B : Type} (r : result A) (k : A -> result B) : result B :=
  match r with
  | Ok a => k a
  | Raise e => Raise e
  end.

Declare Scope result_scope.
Delimit Scope result_scope with result.
Notation "x <- m ;; k" := (rbind m (fun x => k))
  (at level 61, m at next level, right associativity) : result_scope.

(** ** Section *)

(** [Section.__init__(self, name, abbreviation)] *)
Definition Section__init__ (name abbreviation : string) : Section :=
  {| Section_id := None; Section__name := name; Section__abbreviation := abbreviation |}.

(** The [abbreviation] property. *)
Definition Section_abbreviation (self : Section) : string :=
  Section__abbreviation self.

(** Two references to the same section object. *)
Definition Section_eqb (a b : Section) : bool :=
  eqb_id (Section_id a) (Section_id b)
  && String.eqb (Section__name a) (Section__name b)
  && String.eqb (Section__abbreviation a) (Section__abbreviation b).

Definition Section_create (self : Section) : M (option Section) :=
  try_except
    (self' <- session_add self ;;
     commit ;;;
     ret (Some self'))
    (fun e => match e with
              | IntegrityError => Some (rollback ;;; ret None)
              | _ => None
              end).

Definition Section_read (self : Section) : pyval :=
  PDict [("id", of_option_Z (Section_id self));
         ("name", PStr (Section__name self));
         ("abbreviation", PStr (Section__abbreviation self))].

(** ** User *)

Section Werkzeug.

(** [werkzeug.security.generate_password_hash(password, method, salt_length)];
    the last argument is the salt it draws. *)
Variable generate_password_hash : string -> string -> nat -> string -> string.

(** [werkzeug.security.check_password_hash(pwhash, password)] *)
Variable check_password_hash : string -> string -> bool.

Definition User_set_password (salt : string) (self : User) (password : string) : User :=
  mkUser (User_id self) (User__name self) (User__uid self)
    (generate_password_hash password "pbkdf2:sha256" 10%nat salt)
    (User__role self) (User__pfp self) (User_kasm_server_needed self).

Definition User_is_password (self : User) (password : string) : bool :=
  let result := check_password_hash (User__password self) password in
  result.

Definition or_default {A : Type} (arg : option A) (default : A) : A :=
  match arg with Some a => a | None => default end.

(** [User.__init__(self, name, uid, password="123qwerty",
    kasm_server_needed=False, role="User", pfp='')]; an argument the caller
    leaves out is [None] here. *)
Definition User__init__ (salt : string) (name uid : string)
    (password : option string) (kasm_server_needed : option bool)
    (role pfp : option string) : User :=
  let self := mkUser None name uid "" "" None false in
  let self := User_set_password salt self (or_default password "123qwerty") in
  mkUser (User_id self) (User__name self) (User__uid self) (User__password self)
    (or_default role "User") (Some (or_default pfp ""))
    (or_default kasm_server_needed false).

End Werkzeug.

(** The properties [name], [uid], [role], [pfp] and their setters. *)
Definition User_name (self : User) : string := User__name self.

Definition User_set_name (self : User) (name : string) : User :=
  mkUser (User_id self) name (User__uid self) (User__password self)
    (User__role self) (User__pfp self) (User_kasm_server_needed self).

Definition User_uid (self : User) : string := User__uid self.

Definition User_set_uid (self : User) (uid : string) : User :=
  mkUser (User_id self) (User__name self) uid (User__password self)
    (User__role self) (User__pfp self) (User_kasm_server_needed self).

Definition User_role (self : User) : string := User__role self.

Definition User_set_role (self : User) (role : string) : User :=
  mkUser (User_id self) (User__name self) (User__uid self) (User__password self)
    role (User__pfp self) (User_kasm_server_needed self).

Definition User_pfp (self : User) : option string := User__pfp self.

Definition User_set_pfp (self : User) (pfp : option string) : User :=
  mkUser (User_id self) (User__name self) (User__uid self) (User__password self)
    (User__role self) pfp (User_kasm_server_needed self).

Definition User_set_kasm_server_needed (self : User) (kasm_server_needed : bool) : User :=
  mkUser (User_id self) (User__name self) (User__uid self) (User__password self)
    (User__role self) (User__pfp self) kasm_server_needed.

(** [password]: only the first characters are shown. *)
Definition User_password (self : User) : string :=
  substring 0 10 (User__password self) ++ "...".

Definition User_is_uid (self : User) (uid : string) : bool :=
  String.eqb (User__uid self) uid.

Definition User_is_admin (self : User) : bool :=
  String.eqb (User__role self) "Admin".

Definition User_create (self : User) : M (option User) :=
  try_except
    (self' <- session_add self ;;
     commit ;;;
     ret (Some self'))
    (fun e => match e with
              | IntegrityError => Some (rollback ;;; ret None)
              | _ => None
              end).

(** [self.sections]: the sections reached through the user's rows of
    [user_sections]. *)
Definition User_sections (d : DB) (self : User) : list Section :=
  map UserSection_section
    (filter (fun r => eqb_id (UserSection_user r) (User_id self)) (user_sections d)).

Definition User_read (self : User) : M pyval :=
  d <- get_db ;;
  ret (PDict [("id", of_option_Z (User_id self));
              ("name", PStr (User_name self));
              ("uid", PStr (User_uid self));
              ("role", PStr (User__role self));
              ("pfp", of_option_str (User__pfp self));
              ("kasm_server_needed", PBool (User_kasm_server_needed self));
              ("sections",
                match User_sections d self with
                | [] => PNone
                | l => PList (map Section_read l)
                end)]).

(** The assignments of [User.update], before its commit. *)
Definition User_update_fields (generate_password_hash : string -> string -> nat -> string -> string)
    (salt : string) (self : User) (name uid password : string)
    (pfp : option string) (kasm_server_needed : option bool) : User :=
  let self := if len_gt_0 name then User_set_name self name else self in
  let self := if len_gt_0 uid then User_set_uid self uid else self in
  let self := if len_gt_0 password
              then User_set_password generate_password_hash salt self password
              else self in
  let self := match pfp with
              | Some p => User_set_pfp self (Some p)
              | None => self
              end in
  let self := match kasm_server_needed with
              | Some k => User_set_kasm_server_needed self k
              | None => self
              end in
  self.

(** [User.update(self, name="", uid="", password="", pfp=None,
    kasm_server_needed=None)] *)
Definition User_update (generate_password_hash : string -> string -> nat -> string -> string)
    (salt : string) (self : User) (name uid password : string)
    (pfp : option string) (kasm_server_needed : option bool) : M User :=
  let self := User_update_fields generate_password_hash salt self name uid password
                pfp kasm_server_needed in
  session_dirty self ;;;
  commit ;;;
  ret self.

(** [User.add_section(self, section)].  [db.session.add(user_section)] brings
    with it the user and the section the row refers to (the save-update
    cascade of its two relationships): one the session does not hold yet is
    inserted by the same commit, and the row carries the keys they get.  The
    answer is the user as the call leaves it. *)
Definition User_add_section (today : date) (self : User) (section : Section) : M User :=
  d <- get_db ;;
  let found := existsb (fun s => eqb_id (Section_id s) (Section_id section))
                 (User_sections d self) in
  if negb found then
    self' <- session_add self ;;
    section' <- session_add section ;;
    let user_section := UserSection__init__ today self' section' in
    session_add user_section ;;;
    commit ;;;
    ret self'
  else
    ret self.

(** [self.sections.remove(section)]: the first row of the user that points at
    [section] goes. *)
Fixpoint remove_row (self : User) (section : Section) (rows : list UserSection)
  : list UserSection :=
  match rows with
  | [] => []
  | r :: rows' =>
      if eqb_id (UserSection_user r) (User_id self)
         && Section_eqb (UserSection_section r) section
      then rows'
      else r :: remove_row self section rows'
  end.

Definition sections_remove (self : User) (section : Section) : M unit :=
  fun s =>
    (Ok tt,
     mkSession (committed s)
       (with_table (remove_row self section (user_sections (working s))) (working s))
       (generation s)).

(** The [for] loop of [User.remove_sections]. *)
Fixpoint remove_sections_loop (self : User) (section_abbreviations : list string)
  : M unit :=
  match section_abbreviations with
  | [] => ret tt
  | abbreviation :: rest =>
      d <- get_db ;;
      match find (fun section => String.eqb (Section_abbreviation section) abbreviation)
              (User_sections d self) with
      | Some section =>
          sections_remove self section ;;;
          remove_sections_loop self rest
      | None =>
          raise (ValueError ("Section with abbreviation '" ++ abbreviation ++ "' not found."))
      end
  end.

Definition User_remove_sections (self : User) (section_abbreviations : list string)
  : M bool :=
  try_except
    (remove_sections_loop self section_abbreviations ;;;
     commit ;;;
     ret true)
    (fun e => match e with
              | ValueError _ => Some (rollback ;;; ret false)
              | _ => Some (rollback ;;; ret false)
              end).

(** ** Stocks *)

Definition Stocks__init__ (symbol company : string) (quantity sheesh : pyval) : Stocks :=
  {| Stocks_id := None; Stocks__symbol := symbol; Stocks__company := company;
     Stocks__quantity := quantity; Stocks__sheesh := sheesh |}.

Definition Stocks_symbol (self : Stocks) : string := Stocks__symbol self.

Definition Stocks_set_symbol (self : Stocks) (symbol : string) : Stocks :=
  mkStocks (Stocks_id self) symbol (Stocks__company self) (Stocks__quantity self)
    (Stocks__sheesh self).

Definition Stocks_company (self : Stocks) : string := Stocks__company self.

Definition Stocks_set_company (self : Stocks) (company : string) : Stocks :=
  mkStocks (Stocks_id self) (Stocks__symbol self) company (Stocks__quantity self)
    (Stocks__sheesh self).

Definition Stocks_quantity (self : Stocks) : pyval := Stocks__quantity self.

Definition Stocks_set_quantity (self : Stocks) (quantity : pyval) : Stocks :=
  mkStocks (Stocks_id self) (Stocks__symbol self) (Stocks__company self) quantity
    (Stocks__sheesh self).

Definition Stocks_sheesh (self : Stocks) : pyval := Stocks__sheesh self.

Definition Stocks_set_sheesh (self : Stocks) (sheesh : pyval) : Stocks :=
  mkStocks (Stocks_id self) (Stocks__symbol self) (Stocks__company self)
    (Stocks__quantity self) sheesh.

Definition Stocks_create (self : Stocks) : M (option Stocks) :=
  try_except
    (self' <- session_add self ;;
     commit ;;;
     ret (Some self'))
    (fun e => match e with
              | IntegrityError => Some (remove ;;; ret None)
              | _ => None
              end).

(** The assignments of [Stocks.update], before its commit. *)
Definition Stocks_update_fields (self : Stocks) (symbol company : string)
    (quantity : pyval) : Stocks :=
  let self := if len_gt_0 symbol then Stocks_set_symbol self symbol else self in
  let self := if len_gt_0 company then Stocks_set_company self company else self in
  let self := if is_not_None quantity && isinstance_int quantity && gt_0 quantity
              then Stocks_set_quantity self quantity
              else self in
  self.

(** [Stocks.update(self, symbol="", company="", quantity=None)] *)
Definition Stocks_update (self : Stocks) (symbol company : string) (quantity : pyval)
  : M Stocks :=
  let self := Stocks_update_fields self symbol company quantity in
  session_dirty self ;;;
  commit ;;;
  ret self.

(** Attribute lookup on a [Stocks] object: its columns, properties,
    relationship and methods. *)
Definition Stocks_getattr (self : Stocks) (attr : string) : result pyval :=
  if String.eqb attr "id" then Ok (of_option_Z (Stocks_id self))
  else if String.eqb attr "_symbol" then Ok (PStr (Stocks__symbol self))
  else if String.eqb attr "_company" then Ok (PStr (Stocks__company self))
  else if String.eqb attr "_quantity" then Ok (Stocks__quantity self)
  else if String.eqb attr "_sheesh" then Ok (Stocks__sheesh self)
  else if String.eqb attr "symbol" then Ok (PStr (Stocks_symbol self))
  else if String.eqb attr "company" then Ok (PStr (Stocks_company self))
  else if String.eqb attr "quantity" then Ok (Stocks_quantity self)
  else if String.eqb attr "sheesh" then Ok (Stocks_sheesh self)
  else if existsb (String.eqb attr)
            ["__tablename__"; "__init__"; "__str__"; "create"; "update"; "get_price";
             "get_stockid"; "read"; "user_transaction_stocks"]
       then Ok (PObject attr)
  else Raise (AttributeError "Stocks" attr).

Definition Stocks_read (self : Stocks) : result pyval :=
  (id <- Stocks_getattr self "stock_id" ;;
   symbol <- Stocks_getattr self "symbol" ;;
   company <- Stocks_getattr self "company" ;;
   quantity <- Stocks_getattr self "quantity" ;;
   sheesh <- Stocks_getattr self "sheesh" ;;
   Ok (PDict [("id", id); ("symbol", symbol); ("company", company);
              ("quantity", quantity); ("sheesh", sheesh)]))%result.

(** ** StockUser *)

(** [StockUser.__init__(self, user_id, stockmoney, accountdate)] *)
Definition StockUser__init__ (today : date) (user_id : string) (stockmoney : pyval)
    (accountdate : pyval) : StockUser :=
  {| StockUser_id := None;
     StockUser__user_id := user_id;
     StockUser__stockmoney := stockmoney;
     StockUser__accountdate := today |}.

Definition StockUser_user_id (self : StockUser) : string := StockUser__user_id self.

Definition StockUser_stockmoney (self : StockUser) : pyval := StockUser__stockmoney self.

Definition StockUser_set_stockmoney (self : StockUser) (stockmoney : pyval) : StockUser :=
  mkStockUser (StockUser_id self) (StockUser__user_id self) stockmoney
    (StockUser__accountdate self).

Definition StockUser_create (self : StockUser) : M (option StockUser) :=
  try_except
    (self' <- session_add self ;;
     commit ;;;
     ret (Some self'))
    (fun e => match e with
              | IntegrityError => Some (remove ;;; ret None)
              | _ => None
              end).

(** The assignment of [StockUser.update], before its commit. *)
Definition StockUser_update_fields (self : StockUser) (stockmoney : pyval) : StockUser :=
  if is_not_None stockmoney && isinstance_int stockmoney && gt_0 stockmoney
  then StockUser_set_stockmoney self stockmoney
  else self.

(** [StockUser.update(self, stockmoney=None)] *)
Definition StockUser_update (self : StockUser) (stockmoney : pyval) : M StockUser :=
  let self := StockUser_update_fields self stockmoney in
  session_dirty self ;;;
  commit ;;;
  ret self.

Definition StockUser_read (self : StockUser) : pyval :=
  PDict [("id", of_option_Z (StockUser_id self));
         ("user_id", PStr (StockUser_user_id self));
         ("stockmoney", StockUser_stockmoney self);
         ("accountdate", PDate (StockUser__accountdate self))].

(** [user.stock_user]: the one balance record whose [_user_id] is the user's
    [_uid], or [None]. *)
Definition User_stock_user (d : DB) (user : User) : option StockUser :=
  find (fun su => String.eqb (StockUser__user_id su) (User__uid user)) (stockuser d).

(** [User.add_stockuser(self, uid)] *)
Definition User_add_stockuser (today : date) (self : User) (uid : string) : M unit :=
  d <- get_db ;;
  match find (fun u => String.eqb (User__uid u) uid) (users d) with
  | Some user =>
      let found := is_some (User_stock_user d user) in
      if negb found then
        let stock_user := StockUser__init__ today (User_uid user) (PInt 100000) (PDate today) in
        session_add stock_user ;;;
        commit
      else
        ret tt
  | None => ret tt
  end.

(** ** Transactions *)

(** [Transactions.__init__(self, user_id, transaction_type, quantity,
    transaction_date)] *)
Definition Transactions__init__ (today : date) (user_id : pyval)
    (transaction_type : string) (quantity : pyval) (transaction_date : pyval)
  : Transactions :=
  {| Transactions_id := None;
     Transactions__user_id := user_id;
     Transactions__transaction_type := transaction_type;
     Transactions__quantity := quantity;
     Transactions__transaction_date := today |}.

Definition Transactions_user_id (self : Transactions) : pyval :=
  Transactions__user_id self.

Definition Transactions_transaction_type (self : Transactions) : string :=
  Transactions__transaction_type self.

Definition Transactions_quantity (self : Transactions) : pyval :=
  Transactions__quantity self.

Definition Transactions_create (self : Transactions) : M (option Transactions) :=
  try_except
    (self' <- session_add self ;;
     commit ;;;
     ret (Some self'))
    (fun e => match e with
              | IntegrityError => Some (remove ;;; ret None)
              | _ => None
              end).

Definition Transactions_set_user_id (self : Transactions) (user_id : pyval)
  : Transactions :=
  mkTransactions (Transactions_id self) user_id (Transactions__transaction_type self)
    (Transactions__quantity self) (Transactions__transaction_date self).

Definition Transactions_set_transaction_type (self : Transactions)
    (transaction_type : string) : Transactions :=
  mkTransactions (Transactions_id self) (Transactions__user_id self) transaction_type
    (Transactions__quantity self) (Transactions__transaction_date self).

Definition Transactions_set_quantity (self : Transactions) (quantity : pyval)
  : Transactions :=
  mkTransactions (Transactions_id self) (Transactions__user_id self)
    (Transactions__transaction_type self) quantity (Transactions__transaction_date self).

(** The assignments of [Transactions.update], before its commit; the three
    arguments are strings, as their defaults are. *)
Definition Transactions_update_fields (self : Transactions)
    (user_id transaction_type quantity : string) : Transactions :=
  let self := if len_gt_0 user_id
              then Transactions_set_user_id self (PStr user_id) else self in
  let self := if len_gt_0 transaction_type
              then Transactions_set_transaction_type self transaction_type else self in
  let self := if len_gt_0 quantity
              then Transactions_set_quantity self (PStr quantity) else self in
  self.

(** [Transactions.update(self, user_id="", transaction_type="", quantity="")] *)
Definition Transactions_update (self : Transactions)
    (user_id transaction_type quantity : string) : M Transactions :=
  let self := Transactions_update_fields self user_id transaction_type quantity in
  session_dirty self ;;;
  commit ;;;
  ret self.

(** Attribute lookup on a [Transactions] object: its columns, properties,
    relationships and methods. *)
Definition Transactions_getattr (self : Transactions) (attr : string) : result pyval :=
  if String.eqb attr "id" then Ok (of_option_Z (Transactions_id self))
  else if String.eqb attr "_user_id" then Ok (Transactions__user_id self)
  else if String.eqb attr "_transaction_type"
       then Ok (PStr (Transactions__transaction_type self))
  else if String.eqb attr "_quantity" then Ok (Transactions__quantity self)
  else if String.eqb attr "_transaction_date"
       then Ok (PDate (Transactions__transaction_date self))
  else if String.eqb attr "user_id" then Ok (Transactions_user_id self)
  else if String.eqb attr "transaction_type"
       then Ok (PStr (Transactions_transaction_type self))
  else if String.eqb attr "quantity" then Ok (Transactions_quantity self)
  else if existsb (String.eqb attr)
            ["__tablename__"; "__init__"; "__str__"; "create"; "update"; "read";
             "createlog_buy"; "stock_transaction"; "stockuser"]
       then Ok (PObject attr)
  else Raise (AttributeError "Transactions" attr).

Definition Transactions_read (self : Transactions) : result pyval :=
  (id <- Transactions_getattr self "transaction_id" ;;
   user_id <- Transactions_getattr self "user_id" ;;
   transaction_type <- Transactions_getattr self "transaction_type" ;;
   quantity <- Transactions_getattr self "quantity" ;;
   transaction_date <- Transactions_getattr self "_transaction_date" ;;
   Ok (PDict [("id", id); ("user_id", user_id);
              ("transaction_type", transaction_type); ("quantity", quantity);
              ("transaction_date", transaction_date)]))%result.

(** ** User_Transaction_Stocks *)

Definition User_Transaction_Stocks__init__ (user_id transaction_id stock_id : option Z)
    (quantity price_per_stock transaction_amount : pyval) : User_Transaction_Stocks :=
  {| UTS__user_id := user_id;
     UTS__transaction_id := transaction_id;
     UTS__stock_id := stock_id;
     UTS__quantity := quantity;
     UTS__price_per_stock := price_per_stock;
     UTS__transaction_amount := transaction_amount |}.

Definition User_Transaction_Stocks_create (self : User_Transaction_Stocks)
  : M (option User_Transaction_Stocks) :=
  try_except
    (self' <- session_add self ;;
     commit ;;;
     ret (Some self'))
    (fun e => match e with
              | IntegrityError => Some (remove ;;; ret None)
              | _ => None
              end).

(** ** The older model, [model/users.py] *)

Module users_py.

(** Its [User] has a [status] column and no profile picture. *)
Record User := mkUser {
  User_id : option Z;
  User__name : string;
  User__uid : string;
  User__password : string;
  User__role : string;
  User_kasm_server_needed : bool;
  User_status : bool;
  (** the loaded [sections] collection *)
  User_sections : list Section }.

Definition User_name (self : User) : string := User__name self.

Definition User_uid (self : User) : string := User__uid self.

Definition User_role (self : User) : string := User__role self.

Definition User_password (self : User) : string :=
  substring 0 10 (User__password self) ++ "...".

(** Attribute lookup on a [User] object: its columns, properties, relationship
    and methods. *)
Definition User_getattr (self : User) (attr : string) : result pyval :=
  if String.eqb attr "id" then Ok (of_option_Z (User_id self))
  else if String.eqb attr "_name" then Ok (PStr (User__name self))
  else if String.eqb attr "_uid" then Ok (PStr (User__uid self))
  else if String.eqb attr "_password" then Ok (PStr (User__password self))
  else if String.eqb attr "_role" then Ok (PStr (User__role self))
  else if String.eqb attr "kasm_server_needed"
       then Ok (PBool (User_kasm_server_needed self))
  else if String.eqb attr "status" then Ok (PBool (User_status self))
  else if String.eqb attr "name" then Ok (PStr (User_name self))
  else if String.eqb attr "uid" then Ok (PStr (User_uid self))
  else if String.eqb attr "role" then Ok (PStr (User_role self))
  else if String.eqb attr "password" then Ok (PStr (User_password self))
  else if String.eqb attr "is_authenticated" then Ok (PBool true)
  else if String.eqb attr "is_active" then Ok (PBool true)
  else if String.eqb attr "is_anonymous" then Ok (PBool false)
  else if existsb (String.eqb attr)
            ["__tablename__"; "__init__"; "__str__"; "get_id"; "is_uid"; "set_password";
             "is_password"; "is_admin"; "create"; "read"; "update"; "delete";
             "add_section"; "sections"]
       then Ok (PObject attr)
  else Raise (AttributeError "User" attr).

(** The truth value of an attribute in a condition. *)
Definition truthy (x : pyval) : bool :=
  match x with
  | PNone => false
  | PBool b => b
  | PInt n => negb (n =? 0)
  | PStr s => len_gt_0 s
  | PList l => match l with [] => false | _ => true end
  | PDict d => match d with [] => false | _ => true end
  | PDate _ | PObject _ => true
  end.

Definition User_read (self : User) : result pyval :=
  (id <- User_getattr self "id" ;;
   name <- User_getattr self "name" ;;
   uid <- User_getattr self "uid" ;;
   role <- User_getattr self "_role" ;;
   kasm_server_needed <- User_getattr self "kasm_server_needed" ;;
   status <- User_getattr self "status" ;;
   classes <- User_getattr self "classes" ;;
   Ok (PDict [("id", id); ("name", name); ("uid", uid); ("role", role);
              ("kasm_server_needed", kasm_server_needed); ("status", status);
              ("classes", if truthy classes then PObject "self.classes.read()" else PNone)]))%result.

Definition User_set_password
    (generate_password_hash : string -> string -> nat -> string -> string)
    (salt : string) (self : User) (password : string) : User :=
  mkUser (User_id self) (User__name self) (User__uid self)
    (generate_password_hash password "pbkdf2:sha256" 10%nat salt)
    (User__role self) (User_kasm_server_needed self) (User_status self)
    (User_sections self).

(** The assignments of [User.update(self, name="", uid="", password="",
    kasm_server_needed=None, status=None)], before its commit. *)
Definition User_update_fields
    (generate_password_hash : string -> string -> nat -> string -> string)
    (salt : string) (self : User) (name uid password : string)
    (kasm_server_needed status : option bool) : User :=
  let self := if len_gt_0 name
              then mkUser (User_id self) name (User__uid self) (User__password self)
                     (User__role self) (User_kasm_server_needed self) (User_status self)
                     (User_sections self)
              else self in
  let self := if len_gt_0 uid
              then mkUser (User_id self) (User__name self) uid (User__password self)
                     (User__role self) (User_kasm_server_needed self) (User_status self)
                     (User_sections self)
              else self in
  let self := if len_gt_0 password
              then User_set_password generate_password_hash salt self password
              else self in
  let self := match kasm_server_needed with
              | Some v =>
                  mkUser (User_id self) (User__name self) (User__uid self)
                    (User__password self) (User__role self) v (User_status self)
                    (User_sections self)
              | None => self
              end in
  let self := match status with
              | Some v =>
                  mkUser (User_id self) (User__name self) (User__uid self)
                    (User__password self) (User__role self)
                    (User_kasm_server_needed self) v (User_sections self)
              | None => self
              end in
  self.

End users_py.

(** ** The rest of [User] *)


(** [Section.query.filter_by(_abbreviation=section).first()] *)
Definition Section_by_abbreviation (d : DB) (abbreviation : string) : option Section :=
  find (fun s => String.eqb (Section__abbreviation s) abbreviation) (sections d).

(** [User.add_sections(self, sections)]: the abbreviations are taken in
    order, and the first one that names no section ends the call with
    [None]. *)
Fixpoint User_add_sections (today : date) (self : User) (abbreviations : list string)
  : M (option User) :=
  match abbreviations with
  | [] => ret (Some self)
  | section :: rest =>
      d <- get_db ;;
      match Section_by_abbreviation d section with
      | None => ret None
      | Some section_obj =>
          self' <- User_add_section today self section_obj ;;
          User_add_sections today self' rest
      end
  end.


(** An integer the database can store in an INTEGER column: 64 bits, signed;
    [True] and [False] are stored as 1 and 0. *)
Definition fits_integer (v : pyval) : bool :=
  match v with
  | PInt n => (- 2 ^ 63 <=? n) && (n <? 2 ^ 63)
  | PBool _ => true
  | _ => false
  end.

(** What a caller may hand over for an integer column: such an integer, or
    [None]. *)
Definition integer_or_None (v : pyval) : bool :=
  negb (is_not_None v) || fits_integer v.

(** ** The stock game: look-ups and the buy log *)

(** What the look-ups answer: a value, or the pair of an error message and the
    status 500, [{"error": msg}, 500]. *)
Inductive answer :=
| Value (v : pyval)
| Error500 (error : string).

(** The request body the stock methods read: [uid] and [symbol] are strings
    when the body has them, [quantity] is whatever was sent ([None] when
    absent). *)
Record Body := mkBody {
  body_uid : option string;
  body_symbol : option string;
  body_quantity : pyval }.

(** [column == value] in a filter on a text column; nothing equals [None]. *)
Definition text_is (column : string) (value : option string) : bool :=
  match value with
  | Some v => String.eqb column v
  | None => false
  end.

(** [Stocks.get_price(self, body)] *)
Definition Stocks_get_price (body : Body) : M answer :=
  let stock := body_symbol body in
  try_except
    (d <- get_db ;;
     ret (Value match find (fun r => text_is (Stocks__symbol r) stock) (stocks d) with
                | Some r => Stocks__sheesh r
                | None => PNone
                end))
    (fun e => Some (ret (Error500 "No such stock exists"))).

(** [Stocks.get_stockid(self, symbol)] *)
Definition Stocks_get_stockid (symbol : option string) : M answer :=
  try_except
    (d <- get_db ;;
     ret (Value match find (fun r => text_is (Stocks__symbol r) symbol) (stocks d) with
                | Some r => of_option_Z (Stocks_id r)
                | None => PNone
                end))
    (fun e => Some (ret (Error500 "No such stock exists"))).

(** [StockUser.get_balance(self, body)] *)
Definition StockUser_get_balance (body : Body) : M answer :=
  try_except
    (let uid := body_uid body in
     d <- get_db ;;
     ret (Value match find (fun r => text_is (StockUser__user_id r) uid) (stockuser d) with
                | Some r => StockUser__stockmoney r
                | None => PNone
                end))
    (fun e => Some (ret (Error500 "Can't find user in StockUser table"))).

(** [StockUser.get_userid(self, uid)] *)
Definition StockUser_get_userid (uid : option string) : M answer :=
  try_except
    (d <- get_db ;;
     ret (Value match find (fun r => text_is (StockUser__user_id r) uid) (stockuser d) with
                | Some r => of_option_Z (StockUser_id r)
                | None => PNone
                end))
    (fun e => Some (ret (Error500 "Can't find user in StockUser table"))).

(** [Transactions.createlog_buy(self, body)]; [user.id] on the [None] of an
    empty query raises [AttributeError]. *)
Definition Transactions_createlog_buy (today : date) (body : Body) : M answer :=
  let uid := body_uid body in
  let quantity := body_quantity body in
  let transactiontype := "buy" in
  try_except
    (d <- get_db ;;
     match find (fun r => text_is (StockUser__user_id r) uid) (stockuser d) with
     | None => raise (AttributeError "NoneType" "id")
     | Some user =>
         let stock_user :=
           Transactions__init__ today (of_option_Z (StockUser_id user)) transactiontype
             quantity (PDate today) in
         held <- session_add stock_user ;;
         commit ;;;
         ret (Value (of_option_Z (Transactions_id held)))
     end)
    (fun e => Some (ret (Error500 "account has not been autocreated for stock game"))).

(** An integer column filled from a look-up's answer. *)
Definition key_of (a : answer) : option Z :=
  match a with
  | Value (PInt n) => Some n
  | _ => None
  end.

Definition value_of (a : answer) : pyval :=
  match a with
  | Value v => v
  | Error500 _ => PNone
  end.

(** [transaction.stock_transaction]: the row of [user_transaction_stocks]
    that belongs to the transaction, or [None]. *)
Definition Transactions_stock_transaction (d : DB) (transaction : Transactions)
  : option User_Transaction_Stocks :=
  find (fun r => eqb_id (UTS__transaction_id r) (Transactions_id transaction))
    (user_transaction_stocks d).

(** [User_Transaction_Stocks.multilog_buy(self, body, value, transactionid)] *)
Definition User_Transaction_Stocks_multilog_buy (body : Body) (value : pyval)
    (transactionid : Z) : M unit :=
  d <- get_db ;;
  let transaction :=
    find (fun r => eqb_id (Transactions_id r) (Some transactionid)) (stock_transactions d) in
  let uid := body_uid body in
  let symbol := body_symbol body in
  let quantity := body_quantity body in
  match transaction with
  | Some transaction =>
      let found := is_some (Transactions_stock_transaction d transaction) in
      if negb found then
        userid <- StockUser_get_userid uid ;;
        stockid <- Stocks_get_stockid symbol ;;
        stockprice <- Stocks_get_price body ;;
        let stock_transaction :=
          User_Transaction_Stocks__init__ (key_of userid) (Transactions_id transaction)
            (key_of stockid) quantity (value_of stockprice) value in
        session_add stock_transaction ;;;
        commit
      else
        ret tt
  | None => ret tt
  end.

(** ** Test data, after [initUsers] *)

Definition toby : User :=
  mkUser (Some 1) "Thomas Edison" "toby" "pbkdf2:sha256$a$123toby" "Admin" (Some "toby.png") true.

Definition niko : User :=
  mkUser (Some 2) "Nicholas Tesla" "niko" "pbkdf2:sha256$b$123niko" "User" (Some "niko.png") false.

Definition CSA : Section := mkSection (Some 1) "Computer Science A" "CSA".

Definition CSP : Section := mkSection (Some 2) "Computer Science Principles" "CSP".

Definition Robotics : Section := mkSection (Some 3) "Engineering Robotics" "Robotics".

(** The day the test data is loaded; any day of July shows the difference
    between the enrollment rule and its comment. *)
Definition a_day_in_july : date := mkdate 2024 7 15.

Definition a_day_in_march : date := mkdate 2025 3 3.

(** [u1.add_section(s1)], [u1.add_section(s2)], [u2.add_section(s2)],
    [u2.add_section(s3)] on a day of March 2025. *)
Definition test_db : DB :=
  mkDB [toby; niko] [CSA; CSP; Robotics]
    [mkUserSection (Some 1) CSA 2025; mkUserSection (Some 1) CSP 2025;
     mkUserSection (Some 2) CSP 2025; mkUserSection (Some 2) Robotics 2025]
    [] [] [] [].

Definition test_session : Session := mkSession test_db test_db 0.

(** A stand-in for werkzeug's hash, for running the test data only. *)
Definition toy_hash (password method : string) (salt_length : nat) (salt : string)
  : string :=
  method ++ "$" ++ salt ++ "$" ++ password.

(** A run of [add_section] calls, one after the other on the same user. *)
Fixpoint add_section_calls (today : date) (self : User) (l : list Section) : M User :=
  match l with
  | [] => ret self
  | section :: l' =>
      self' <- User_add_section today self section ;;
      add_section_calls today self' l'
  end.

(** What [create] promises, for a class with rows of type [Row]: with [held]
    the object as [db.session.add] leaves it in the session, a commit that
    succeeds makes the pending rows the committed ones and the answer is the
    object; a commit that raises [IntegrityError] ends with the committed rows
    as they were, nothing pending, and the answer [None]. *)
Definition create_contract {Row : Type} `{Model Row} (create : Row -> M (option Row))
  : Prop :=
  forall (self held : Row) (s s1 : Session),
    session_add self s = (Ok held, s1) ->
    (held = self \/ held = flush (table (working s)) self)
    /\ (forall s2, commit s1 = (Ok tt, s2) ->
        create self s = (Ok (Some held), s2)
        /\ committed s2 = working s1 /\ clean s2)
    /\ (forall s2, commit s1 = (Raise IntegrityError, s2) ->
        exists s3, create self s = (Ok None, s3)
                   /\ committed s3 = committed s /\ clean s3).

(** The shape the six [create] methods share, with the clean-up of the
    [except] branch left open. *)
Definition create_with {Row : Type} `{Model Row} (cleanup : M unit)
  : Row -> M (option Row) :=
  fun self =>
    try_except
      (self' <- session_add self ;;
       commit ;;;
       ret (Some self'))
      (fun e => match e with
                | IntegrityError => Some (cleanup ;;; ret None)
                | _ => None
                end).

(** The rows after [add_section] stored a new association. *)
Definition with_new_section (today : date) (self : User) (section : Section) (d : DB)
  : DB :=
  mkDB (users d) (sections d)
    (user_sections d ++ [UserSection__init__ today self section])
    (stocks d) (stockuser d) (stock_transactions d) (user_transaction_stocks d).

(** The rows of [user_sections] replaced. *)
Definition with_rows (rows : list UserSection) (d : DB) : DB :=
  mkDB (users d) (sections d) rows (stocks d) (stockuser d) (stock_transactions d)
    (user_transaction_stocks d).

(** The sections of [self] among given rows. *)
Definition sections_in (self : User) (rows : list UserSection) : list Section :=
  map UserSection_section
    (filter (fun r => eqb_id (UserSection_user r) (User_id self)) rows).

(** The sections a list of abbreviations names, in order. *)
Definition named (d : DB) (abbreviations : list string) (found : list Section) : Prop :=
  Forall2 (fun a x => Section_by_abbreviation d a = Some x) abbreviations found.

(** Test data of the stock game: one stock, and niko's balance record. *)
Definition AAPL : Stocks := mkStocks (Some 1) "AAPL" "Apple Inc." (PInt 100) (PInt 150).

Definition niko_account : StockUser :=
  mkStockUser (Some 1) "niko" (PInt 100000) a_day_in_march.

Definition game_db : DB :=
  mkDB [toby; niko] [CSA; CSP; Robotics] (user_sections test_db) [AAPL] [niko_account]
    [] [].

Definition game_session : Session := mkSession game_db game_db 0.




(** * Properties *)

(** ** Enrollment year *)

(** On a month from August to December the stored year is next year, and from
    January to June it is the current one, as the comment in the code says. *)
Lemma set_year_agrees_outside_july (today : date) :
  1 <= month today <= 12 -> month today <> 7 ->
  set_year_based_on_enrollment today =
    if (8 <=? month today) && (month today <=? 12) then year today + 1 else year today.
Proof.
  intros Hm H7. unfold set_year_based_on_enrollment. cbv zeta.
  destruct (7 <=? month today) eqn:E7, (8 <=? month today) eqn:E8,
    (month today <=? 12) eqn:E12; simpl; try reflexivity; lia.
Qed.

Lemma set_year_in_july (today : date) :
  month today = 7 -> set_year_based_on_enrollment today = year today + 1.
Proof.
  intros H. unfold set_year_based_on_enrollment. rewrite H. reflexivity.
Qed.

(** C1: the enrollment year is next year only from August to December.  The
    code starts at 7: on 15 July 2024 it stores 2025 where the rule (and the
    comment next to the test) gives 2024. *)
Theorem set_year_july_2024 :
  set_year_based_on_enrollment a_day_in_july = 2025
  /\ UserSection_year (UserSection__init__ a_day_in_july toby CSA) = 2025
  /\ (if (8 <=? month a_day_in_july) && (month a_day_in_july <=? 12)
      then year a_day_in_july + 1 else year a_day_in_july) = 2024.
Proof. repeat split. Qed.

(** ** Constructors that read the clock *)

(** C10: whatever is passed as [accountdate] or [transaction_date], the stored
    date is today's. *)
Theorem init_dates_are_today (today : date) (accountdate transaction_date : pyval)
    (uid transaction_type : string) (stockmoney user_id quantity : pyval) :
  StockUser__accountdate (StockUser__init__ today uid stockmoney accountdate) = today
  /\ Transactions__transaction_date
       (Transactions__init__ today user_id transaction_type quantity transaction_date)
     = today.
Proof. split; reflexivity. Qed.

Example init_date_ignores_argument :
  StockUser__accountdate
    (StockUser__init__ a_day_in_march "toby" (PInt 100000) (PDate a_day_in_july))
  = a_day_in_march.
Proof. reflexivity. Qed.

(** ** Getters and setters *)

(** C7: reading a property after setting it gives the value set, and the other
    columns keep their values. *)
Theorem setters_set_one_property (u : User) (k : Stocks) (v : string)
    (p : option string) (q : pyval) :
  (User_name (User_set_name u v) = v
   /\ User_set_name u v =
        mkUser (User_id u) v (User__uid u) (User__password u) (User__role u)
          (User__pfp u) (User_kasm_server_needed u))
  /\ (User_uid (User_set_uid u v) = v
      /\ User_set_uid u v =
           mkUser (User_id u) (User__name u) v (User__password u) (User__role u)
             (User__pfp u) (User_kasm_server_needed u))
  /\ (User_role (User_set_role u v) = v
      /\ User_set_role u v =
           mkUser (User_id u) (User__name u) (User__uid u) (User__password u) v
             (User__pfp u) (User_kasm_server_needed u))
  /\ (User_pfp (User_set_pfp u p) = p
      /\ User_set_pfp u p =
           mkUser (User_id u) (User__name u) (User__uid u) (User__password u)
             (User__role u) p (User_kasm_server_needed u))
  /\ (Stocks_symbol (Stocks_set_symbol k v) = v
      /\ Stocks_set_symbol k v =
           mkStocks (Stocks_id k) v (Stocks__company k) (Stocks__quantity k)
             (Stocks__sheesh k))
  /\ (Stocks_company (Stocks_set_company k v) = v
      /\ Stocks_set_company k v =
           mkStocks (Stocks_id k) (Stocks__symbol k) v (Stocks__quantity k)
             (Stocks__sheesh k))
  /\ (Stocks_quantity (Stocks_set_quantity k q) = q
      /\ Stocks_set_quantity k q =
           mkStocks (Stocks_id k) (Stocks__symbol k) (Stocks__company k) q
             (Stocks__sheesh k))
  /\ (Stocks_sheesh (Stocks_set_sheesh k q) = q
      /\ Stocks_set_sheesh k q =
           mkStocks (Stocks_id k) (Stocks__symbol k) (Stocks__company k)
             (Stocks__quantity k) q).
Proof. repeat split. Qed.

(** ** read *)

Lemma Section_read_fields (self : Section) :
  Section_read self =
    PDict [("id", of_option_Z (Section_id self)); ("name", PStr (Section__name self));
           ("abbreviation", PStr (Section__abbreviation self))].
Proof. reflexivity. Qed.

(** [User.read] of [user.py] answers for every user and leaves the session as
    it was. *)
Lemma User_read_succeeds (self : User) (s : Session) :
  exists d, User_read self s = (Ok (PDict d), s).
Proof. unfold User_read, bind, get_db, ret. eexists. reflexivity. Qed.

(** C4: [read] should answer with the stored fields.  Three of them look up an
    attribute their class does not have, [stock_id], [transaction_id] and
    [classes], and raise [AttributeError] on every object. *)
Theorem read_raises_AttributeError (k : Stocks) (t : Transactions) (u : users_py.User) :
  Stocks_read k = Raise (AttributeError "Stocks" "stock_id")
  /\ Transactions_read t = Raise (AttributeError "Transactions" "transaction_id")
  /\ users_py.User_read u = Raise (AttributeError "User" "classes").
Proof. repeat split. Qed.

Example Stocks_read_AAPL :
  Stocks_read (Stocks__init__ "AAPL" "Apple Inc." (PInt 100) (PInt 150))
  = Raise (AttributeError "Stocks" "stock_id").
Proof. reflexivity. Qed.

(** ** The session *)

Lemma session_add_total {Row : Type} `{Model Row} (self : Row) (s : Session) :
  exists held s1, session_add self s = (Ok held, s1)
                  /\ committed s1 = committed s /\ generation s1 = generation s.
Proof.
  unfold session_add. cbv zeta.
  destruct (existsb (same_row self) (table (working s))); eauto.
Qed.

Lemma commit_cases (s : Session) :
  (integrity (working s) = true
   /\ commit s = (Ok tt, mkSession (working s) (working s) (generation s)))
  \/ (integrity (working s) = false /\ commit s = (Raise IntegrityError, s)).
Proof.
  unfold commit. destruct (integrity (working s)); [left | right]; split; reflexivity.
Qed.

Lemma commit_Ok (s s' : Session) :
  commit s = (Ok tt, s') ->
  integrity (working s) = true
  /\ s' = mkSession (working s) (working s) (generation s).
Proof.
  destruct (commit_cases s) as [[Hi Hc] | [Hi Hc]]; rewrite Hc; intros E.
  - split; [exact Hi | congruence].
  - discriminate.
Qed.

Lemma commit_Raise (s s' : Session) (e : exn) :
  commit s = (Raise e, s') ->
  integrity (working s) = false /\ e = IntegrityError /\ s' = s.
Proof.
  destruct (commit_cases s) as [[Hi Hc] | [Hi Hc]]; rewrite Hc; intros E.
  - discriminate.
  - repeat split; congruence.
Qed.

(** ** create *)

Section Create.

Context {Row : Type} `{Model Row}.

(** What the session is left with after a failed commit and either clean-up. *)
Variable cleanup : M unit.
Hypothesis cleanup_resets :
  forall s, exists g, cleanup s = (Ok tt, mkSession (committed s) (committed s) g).

Lemma create_with_contract : create_contract (create_with cleanup).
Proof.
  intros self held s s1 Hadd. split; [| split].
  - revert Hadd. unfold session_add. cbv zeta.
    destruct (existsb (same_row self) (table (working s)));
      intros E; inversion E; auto.
  - intros s2 Hc. unfold create_with, try_except, bind. rewrite Hadd, Hc.
    apply commit_Ok in Hc. destruct Hc as [_ ->].
    repeat split.
  - intros s2 Hc. unfold create_with, try_except, bind. rewrite Hadd, Hc.
    apply commit_Raise in Hc. destruct Hc as (_ & _ & ->).
    destruct (cleanup_resets s1) as [g Hg]. rewrite Hg. unfold ret.
    destruct (session_add_total self s) as (h' & s1' & E & Hcm & _).
    rewrite Hadd in E. inversion E; subst h' s1'.
    eexists. split; [reflexivity |]. simpl. rewrite Hcm. split; reflexivity.
Qed.

End Create.

Lemma rollback_resets (s : Session) :
  exists g, rollback s = (Ok tt, mkSession (committed s) (committed s) g).
Proof. eexists. reflexivity. Qed.

Lemma remove_resets (s : Session) :
  exists g, remove s = (Ok tt, mkSession (committed s) (committed s) g).
Proof. eexists. reflexivity. Qed.

(** C3: every [create] answers with the object when the commit succeeds; when
    the commit raises [IntegrityError] the transaction is undone, by
    [rollback] in [User] and [Section] and by [remove] in the stock classes,
    so the committed rows are what they were, and the answer is [None]. *)
Theorem create_returns_self_or_None :
  create_contract User_create
  /\ create_contract Section_create
  /\ create_contract Stocks_create
  /\ create_contract StockUser_create
  /\ create_contract Transactions_create
  /\ create_contract User_Transaction_Stocks_create.
Proof.
  split; [| split; [| split; [| split; [| split]]]].
  - exact (@create_with_contract _ _ rollback rollback_resets).
  - exact (@create_with_contract _ _ rollback rollback_resets).
  - exact (@create_with_contract _ _ remove remove_resets).
  - exact (@create_with_contract _ _ remove remove_resets).
  - exact (@create_with_contract _ _ remove remove_resets).
  - exact (@create_with_contract _ _ remove remove_resets).
Qed.

(** A second user with the uid "toby" is refused and nothing is stored; a new
    uid is stored under the next id. *)
Example create_duplicate_uid :
  User_create (mkUser None "Toby Again" "toby" "x" "User" None false) test_session
  = (Ok None, test_session).
Proof. reflexivity. Qed.

Example create_new_uid :
  fst (User_create (mkUser None "Grace Hopper" "hop" "x" "User" None false) test_session)
  = Ok (Some (mkUser (Some 3) "Grace Hopper" "hop" "x" "User" None false)).
Proof. reflexivity. Qed.

(** A stock without a quantity violates [nullable=False]; [remove] leaves a
    new session over the same rows. *)
Example create_stock_without_quantity :
  Stocks_create (Stocks__init__ "AAPL" "Apple Inc." PNone (PInt 150)) test_session
  = (Ok None, mkSession test_db test_db 1).
Proof. reflexivity. Qed.

(** ** Constraints *)

Lemma eqb_id_eq (a b : option Z) : eqb_id a b = true <-> a = b.
Proof.
  destruct a, b; simpl; try (split; congruence).
  rewrite Z.eqb_eq. split; congruence.
Qed.

Lemma eqb_id_refl (a : option Z) : eqb_id a a = true.
Proof. now apply eqb_id_eq. Qed.


Lemma Section_eqb_eq (a b : Section) : Section_eqb a b = true <-> a = b.
Proof.
  destruct a, b. unfold Section_eqb. simpl.
  rewrite !andb_true_iff, eqb_id_eq, !String.eqb_eq. split.
  - intros [[-> ->] ->]. reflexivity.
  - intros E. inversion E. auto.
Qed.

Lemma existsb_const_false {A : Type} (f : A -> bool) (l : list A) :
  (forall x, f x = false) -> existsb f l = false.
Proof.
  intros Hf. induction l as [| x l IH]; simpl; [reflexivity |].
  now rewrite Hf, IH.
Qed.

Lemma nodupb_snoc {A : Type} (eqb : A -> A -> bool) (l : list A) (x : A) :
  nodupb eqb (l ++ [x]) = nodupb eqb l && negb (existsb (fun y => eqb y x) l).
Proof.
  induction l as [| a l IH]; simpl; [reflexivity |].
  rewrite IH, existsb_app. simpl.
  destruct (existsb (eqb a) l), (eqb a x), (nodupb eqb l),
    (existsb (fun y => eqb y x) l); reflexivity.
Qed.

Lemma next_id_gt (ids : list (option Z)) (n : Z) :
  In (Some n) ids -> n < next_id ids.
Proof.
  unfold next_id. induction ids as [| o ids IH]; cbn [fold_right In]; [tauto |].
  intros [-> | Hin].
  - lia.
  - specialize (IH Hin). destruct o; lia.
Qed.

Lemma next_id_fresh (ids : list (option Z)) :
  existsb (fun y => eqb_id y (Some (next_id ids))) ids = false.
Proof.
  destruct (existsb _ ids) eqn:E; [| reflexivity].
  apply existsb_exists in E. destruct E as (y & Hin & Hy).
  apply eqb_id_eq in Hy. subst y. apply next_id_gt in Hin. lia.
Qed.

Lemma pk_ok_fresh (ids : list (option Z)) :
  pk_ok ids = true -> pk_ok (ids ++ [Some (next_id ids)]) = true.
Proof.
  unfold pk_ok. rewrite !andb_true_iff. intros [Hs Hn]. split.
  - rewrite forallb_app, Hs. reflexivity.
  - rewrite nodupb_snoc, Hn, next_id_fresh. reflexivity.
Qed.

(** [integrity], constraint by constraint. *)
Lemma integrity_iff (d : DB) :
  integrity d = true <->
  pk_ok (map User_id (users d)) = true
  /\ nodupb String.eqb (map User__uid (users d)) = true
  /\ pk_ok (map Section_id (sections d)) = true
  /\ nodupb String.eqb (map Section__abbreviation (sections d)) = true
  /\ nodupb eqb_key2 (map UserSection_key (user_sections d)) = true
  /\ (pk_ok (map Stocks_id (stocks d)) = true
      /\ forallb (fun r => is_not_None (Stocks__quantity r) && is_not_None (Stocks__sheesh r))
           (stocks d) = true)
  /\ (pk_ok (map StockUser_id (stockuser d)) = true
      /\ forallb (fun r => is_not_None (StockUser__stockmoney r)) (stockuser d) = true)
  /\ integrity
       (mkDB [] [] [] [] [] (stock_transactions d) (user_transaction_stocks d)) = true.
Proof.
  unfold integrity. simpl. rewrite !andb_true_iff. tauto.
Qed.

(** ** add_stockuser *)

Lemma session_add_StockUser (today : date) (uid : string) (money date_arg : pyval)
    (s : Session) :
  session_add (StockUser__init__ today uid money date_arg) s =
    let held := mkStockUser (Some (next_id (map StockUser_id (stockuser (working s)))))
                  uid money today in
    (Ok held,
     mkSession (committed s)
       (mkDB (users (working s)) (sections (working s)) (user_sections (working s))
          (stocks (working s)) (stockuser (working s) ++ [held])
          (stock_transactions (working s)) (user_transaction_stocks (working s)))
       (generation s)).
Proof.
  unfold session_add. simpl.
  rewrite existsb_const_false by reflexivity. reflexivity.
Qed.

(** C8: [add_stockuser(uid)] stores one new balance record, with 100000 of
    stock money and today's date, when the uid is a user's and that user has no
    balance record yet; in the two other cases it stores nothing and the
    session is as before. *)
Theorem add_stockuser_creates_once (today : date) (self : User) (uid : string)
    (s : Session) :
  clean s ->
  integrity (committed s) = true ->
  let d := committed s in
  match find (fun u => String.eqb (User__uid u) uid) (users d) with
  | Some user =>
      match User_stock_user d user with
      | None =>
          let new := mkStockUser (Some (next_id (map StockUser_id (stockuser d))))
                       uid (PInt 100000) today in
          let d' := mkDB (users d) (sections d) (user_sections d) (stocks d)
                      (stockuser d ++ [new]) (stock_transactions d)
                      (user_transaction_stocks d) in
          User_add_stockuser today self uid s = (Ok tt, mkSession d' d' (generation s))
      | Some _ => User_add_stockuser today self uid s = (Ok tt, s)
      end
  | None => User_add_stockuser today self uid s = (Ok tt, s)
  end.
Proof.
  intros Hclean Hint. cbv zeta. unfold clean in Hclean.
  unfold User_add_stockuser, bind, get_db. rewrite Hclean.
  set (d := committed s) in *.
  destruct (find (fun u => String.eqb (User__uid u) uid) (users d)) as [user |] eqn:Hu;
    [| reflexivity].
  destruct (User_stock_user d user) as [su |] eqn:Hsu; simpl; [reflexivity |].
  apply find_some in Hu. destruct Hu as [_ Huid]. apply String.eqb_eq in Huid.
  unfold User_uid. rewrite Huid.
  rewrite session_add_StockUser. cbv zeta. rewrite Hclean.
  unfold commit. cbn [working committed generation].
  assert (Hok : integrity
                  (mkDB (users d) (sections d) (user_sections d) (stocks d)
                     (stockuser d ++
                        [mkStockUser (Some (next_id (map StockUser_id (stockuser d))))
                           uid (PInt 100000) today])
                     (stock_transactions d) (user_transaction_stocks d)) = true).
  { apply integrity_iff in Hint. apply integrity_iff. cbn [users sections user_sections
      stocks stockuser stock_transactions user_transaction_stocks].
    destruct Hint as (H1 & H2 & H3 & H4 & H5 & [H6 H6'] & [H7 H8] & H9).
    repeat split; try assumption.
    - rewrite map_app. simpl. apply pk_ok_fresh. exact H7.
    - rewrite forallb_app, H8. reflexivity. }
  rewrite Hok. reflexivity.
Qed.

Lemma add_stockuser_creates_once_witness :
  User_add_stockuser a_day_in_march toby "niko" test_session =
    (Ok tt,
     let d' := mkDB [toby; niko] [CSA; CSP; Robotics] (user_sections test_db) []
                 [mkStockUser (Some 1) "niko" (PInt 100000) a_day_in_march] [] [] in
     mkSession d' d' 0).
Proof.
  exact (add_stockuser_creates_once a_day_in_march toby "niko" test_session
           eq_refl eq_refl).
Defined.

(** A second call finds the record and stores nothing more. *)
Example add_stockuser_twice :
  let s1 := snd (User_add_stockuser a_day_in_march toby "niko" test_session) in
  User_add_stockuser a_day_in_march toby "niko" s1 = (Ok tt, s1)
  /\ User_add_stockuser a_day_in_march toby "nobody" test_session = (Ok tt, test_session).
Proof. split; reflexivity. Qed.

(** ** add_section *)

(** The test of [add_section] on the user's sections is the primary key test
    on the rows of [user_sections]. *)
Lemma found_iff_key_taken (self : User) (section : Section) (rows : list UserSection) :
  existsb (fun y => eqb_key2 y (User_id self, Section_id section))
    (map UserSection_key rows)
  = existsb (fun x => eqb_id (Section_id x) (Section_id section))
      (map UserSection_section
         (filter (fun r => eqb_id (UserSection_user r) (User_id self)) rows)).
Proof.
  induction rows as [| r rows IH]; simpl; [reflexivity |].
  unfold eqb_key2 at 1. simpl.
  destruct (eqb_id (UserSection_user r) (User_id self)); simpl; rewrite IH; reflexivity.
Qed.

Lemma session_add_UserSection (r : UserSection) (s : Session) :
  session_add r s =
    (Ok r,
     mkSession (committed s)
       (mkDB (users (working s)) (sections (working s)) (user_sections (working s) ++ [r])
          (stocks (working s)) (stockuser (working s)) (stock_transactions (working s))
          (user_transaction_stocks (working s)))
       (generation s)).
Proof. unfold session_add. simpl. rewrite existsb_const_false by reflexivity. reflexivity. Qed.

(** An object the session holds already is not added again. *)
Lemma session_add_held {Row : Type} `{Model Row} (obj : Row) (s : Session) :
  existsb (same_row obj) (table (working s)) = true ->
  session_add obj s = (Ok obj, s).
Proof. intros Hheld. unfold session_add. cbv zeta. now rewrite Hheld. Qed.

Lemma stored_is_held {A : Type} (key : A -> option Z) (l : list A) (a : A) :
  pk_ok (map key l) = true ->
  In a l ->
  existsb (fun b => is_some (key a) && eqb_id (key a) (key b)) l = true.
Proof.
  unfold pk_ok. rewrite andb_true_iff, forallb_forall. intros [Hsome _] Ha.
  apply existsb_exists. exists a. split; [exact Ha |].
  rewrite (Hsome (key a)) by now apply in_map. simpl. apply eqb_id_refl.
Qed.

Lemma add_section_found (today : date) (self : User) (section : Section) (s : Session) :
  existsb (fun x => eqb_id (Section_id x) (Section_id section))
    (User_sections (working s) self) = true ->
  User_add_section today self section s = (Ok self, s).
Proof.
  intros Hf. unfold User_add_section, bind, get_db. rewrite Hf. reflexivity.
Qed.

Lemma add_section_new (today : date) (self : User) (section : Section) (s : Session) :
  clean s ->
  integrity (committed s) = true ->
  In self (users (committed s)) ->
  In section (sections (committed s)) ->
  existsb (fun x => eqb_id (Section_id x) (Section_id section))
    (User_sections (committed s) self) = false ->
  let d' := with_new_section today self section (committed s) in
  User_add_section today self section s = (Ok self, mkSession d' d' (generation s))
  /\ integrity d' = true
  /\ User_sections d' self = User_sections (committed s) self ++ [section].
Proof.
  intros Hclean Hint Hself Hsection Hf. cbv zeta. unfold clean in Hclean.
  pose proof (proj1 (integrity_iff _) Hint) as (H1 & H2 & H3 & H4 & H5 & H6 & H7 & H8).
  assert (Hok : integrity (with_new_section today self section (committed s)) = true).
  { apply integrity_iff.
    unfold with_new_section. cbn [users sections user_sections stocks stockuser
      stock_transactions user_transaction_stocks].
    repeat split; try tauto.
    rewrite map_app. cbn [map]. rewrite nodupb_snoc, H5.
    change (UserSection_key (UserSection__init__ today self section))
      with (User_id self, Section_id section).
    rewrite found_iff_key_taken. unfold User_sections in Hf. rewrite Hf. reflexivity. }
  split; [| split].
  - unfold User_add_section. unfold bind at 1. unfold get_db.
    rewrite Hclean, Hf. cbn [negb]. unfold bind at 1.
    rewrite (session_add_held self s)
      by (rewrite Hclean; exact (stored_is_held User_id _ self H1 Hself)).
    unfold bind at 1.
    rewrite (session_add_held section s)
      by (rewrite Hclean; exact (stored_is_held Section_id _ section H3 Hsection)).
    unfold bind. rewrite session_add_UserSection. rewrite Hclean. unfold commit.
    cbn [working committed generation].
    fold (with_new_section today self section (committed s)). rewrite Hok. reflexivity.
  - exact Hok.
  - unfold User_sections, with_new_section. cbn [user_sections].
    rewrite filter_app, map_app. simpl. rewrite eqb_id_refl. reflexivity.
Qed.






Example add_section_twice :
  let d := committed (snd (add_section_calls a_day_in_march niko [CSA; CSA; CSP]
                             test_session)) in
  List.length (User_sections d niko) = 3%nat
  /\ existsb (fun x => eqb_id (Section_id x) (Section_id CSA)) (User_sections d niko) = true.
Proof. split; reflexivity. Qed.


(** An unsaved section whose abbreviation is free is stored together with its
    association. *)
Example add_section_unsaved_section_stored :
  let r := User_add_section a_day_in_march toby (Section__init__ "Biology" "BIO")
             test_session in
  fst r = Ok toby
  /\ In (mkSection (Some 4) "Biology" "BIO") (sections (committed (snd r)))
  /\ In (mkSection (Some 4) "Biology" "BIO") (User_sections (committed (snd r)) toby).
Proof. cbv zeta. split; [reflexivity |]. split; simpl; auto 10. Qed.

(** ** remove_sections *)

Lemma with_rows_same (d : DB) : with_rows (user_sections d) d = d.
Proof. destruct d. reflexivity. Qed.

Lemma integrity_with_rows (rows : list UserSection) (d : DB) :
  integrity d = true ->
  nodupb eqb_key2 (map UserSection_key rows) = true ->
  integrity (with_rows rows d) = true.
Proof.
  intros Hint Hrows. apply integrity_iff in Hint. apply integrity_iff.
  unfold with_rows. cbn [users sections user_sections stocks stockuser
    stock_transactions user_transaction_stocks]. tauto.
Qed.

Lemma remove_row_incl (self : User) (section : Section) (rows : list UserSection)
    (r : UserSection) :
  In r (remove_row self section rows) -> In r rows.
Proof.
  induction rows as [| r0 rows IH]; simpl; [tauto |].
  destruct (eqb_id (UserSection_user r0) (User_id self)
            && Section_eqb (UserSection_section r0) section); simpl; tauto.
Qed.

Lemma nodupb_remove_row (self : User) (section : Section) (rows : list UserSection) :
  nodupb eqb_key2 (map UserSection_key rows) = true ->
  nodupb eqb_key2 (map UserSection_key (remove_row self section rows)) = true.
Proof.
  induction rows as [| r rows IH]; simpl; [auto |].
  rewrite andb_true_iff, negb_true_iff. intros [Hr Hn].
  destruct (eqb_id (UserSection_user r) (User_id self)
            && Section_eqb (UserSection_section r) section); [exact Hn |].
  simpl. rewrite (IH Hn), andb_true_r, negb_true_iff.
  destruct (existsb (eqb_key2 (UserSection_key r))
              (map UserSection_key (remove_row self section rows))) eqn:E;
    [| reflexivity].
  apply existsb_exists in E. destruct E as (k & Hk & Hkey).
  apply in_map_iff in Hk. destruct Hk as (r' & <- & Hr').
  apply remove_row_incl in Hr'.
  assert (E : existsb (eqb_key2 (UserSection_key r)) (map UserSection_key rows) = true).
  { apply existsb_exists. exists (UserSection_key r'). split; [| exact Hkey].
    now apply in_map. }
  congruence.
Qed.

Lemma sections_in_remove_row_incl (self : User) (section : Section)
    (rows : list UserSection) (x : Section) :
  In x (sections_in self (remove_row self section rows)) -> In x (sections_in self rows).
Proof.
  unfold sections_in. rewrite !in_map_iff. intros (r & Hx & Hr).
  exists r. split; [exact Hx |]. apply filter_In in Hr. destruct Hr as [Hr Hu].
  apply filter_In. split; [| exact Hu]. now apply remove_row_incl in Hr.
Qed.

Lemma sections_in_remove_row_other (self other : User) (section : Section)
    (rows : list UserSection) :
  User_id other <> User_id self ->
  sections_in other (remove_row self section rows) = sections_in other rows.
Proof.
  intros Hother. unfold sections_in. f_equal.
  induction rows as [| r rows IH]; simpl; [reflexivity |].
  destruct (eqb_id (UserSection_user r) (User_id self)) eqn:Hu; simpl.
  - destruct (Section_eqb (UserSection_section r) section); simpl.
    + apply eqb_id_eq in Hu.
      destruct (eqb_id (UserSection_user r) (User_id other)) eqn:Ho; [| reflexivity].
      apply eqb_id_eq in Ho. congruence.
    + now rewrite IH.
  - now rewrite IH.
Qed.

Lemma filter_all {A : Type} (p : A -> bool) (l : list A) :
  (forall x, In x l -> p x = true) -> filter p l = l.
Proof.
  induction l as [| a l IH]; simpl; intros H; [reflexivity |].
  rewrite (H a) by now left. f_equal. apply IH. intros x Hx. apply H. now right.
Qed.

Lemma filter_twice {A : Type} (p q : A -> bool) (l : list A) :
  filter q (filter p l) = filter (fun x => p x && q x) l.
Proof.
  induction l as [| a l IH]; simpl; [reflexivity |].
  destruct (p a); simpl; [destruct (q a) |]; rewrite IH; reflexivity.
Qed.

(** Dropping sections keeps the abbreviations of the remaining ones distinct. *)
Lemma abbreviations_distinct_filter (keep : Section -> bool) (secs : list Section) :
  NoDup (map Section__abbreviation secs) ->
  NoDup (map Section__abbreviation (filter keep secs)).
Proof.
  intros Hnd. induction secs as [| x secs IH]; simpl; [constructor |].
  apply NoDup_cons_iff in Hnd. destruct Hnd as [Hx Hnd].
  destruct (keep x); simpl; [| exact (IH Hnd)].
  constructor; [| exact (IH Hnd)].
  rewrite in_map_iff. intros (y & Hy & Hin). apply Hx.
  rewrite <- Hy. apply in_map. apply filter_In in Hin. tauto.
Qed.

(** Removing the first section that carries an abbreviation removes every
    section that carries it, when the user's abbreviations are distinct. *)
Lemma sections_in_remove_row (self : User) (a : string) (section : Section)
    (rows : list UserSection) :
  find (fun x => String.eqb (Section_abbreviation x) a) (sections_in self rows)
    = Some section ->
  NoDup (map Section__abbreviation (sections_in self rows)) ->
  sections_in self (remove_row self section rows)
  = filter (fun x => negb (String.eqb (Section__abbreviation x) a)) (sections_in self rows).
Proof.
  unfold sections_in, Section_abbreviation.
  induction rows as [| r rows IH]; simpl; [discriminate |].
  destruct (eqb_id (UserSection_user r) (User_id self)) eqn:Hu; simpl.
  - destruct (String.eqb (Section__abbreviation (UserSection_section r)) a) eqn:Ha; simpl.
    + intros E Hnd. inversion E; subst section. clear E.
      assert (Hrefl : Section_eqb (UserSection_section r) (UserSection_section r) = true)
        by now apply Section_eqb_eq.
      rewrite Hrefl. symmetry. apply filter_all.
      intros x Hx. apply negb_true_iff.
      destruct (String.eqb (Section__abbreviation x) a) eqn:Hxa; [| reflexivity].
      apply String.eqb_eq in Hxa. apply String.eqb_eq in Ha.
      apply NoDup_cons_iff in Hnd. destruct Hnd as [Hn _].
      exfalso. apply Hn. rewrite Ha, <- Hxa. now apply in_map.
    + intros E Hnd.
      destruct (Section_eqb (UserSection_section r) section) eqn:Hs.
      * apply Section_eqb_eq in Hs. apply find_some in E. destruct E as [_ E].
        rewrite <- Hs in E. congruence.
      * simpl. rewrite Hu. simpl. f_equal. apply IH; [exact E |].
        now inversion Hnd.
  - intros E Hnd. simpl. rewrite Hu. now apply IH.
Qed.

Lemma remove_sections_loop_cons (self : User) (a : string) (rest : list string)
    (s : Session) :
  remove_sections_loop self (a :: rest) s =
    match find (fun x => String.eqb (Section_abbreviation x) a)
            (sections_in self (user_sections (working s))) with
    | Some section =>
        remove_sections_loop self rest
          (mkSession (committed s)
             (with_rows (remove_row self section (user_sections (working s))) (working s))
             (generation s))
    | None =>
        (Raise (ValueError ("Section with abbreviation '" ++ a ++ "' not found.")), s)
    end.
Proof.
  cbn [remove_sections_loop]. unfold bind, get_db, User_sections, sections_in.
  destruct (find _ _); reflexivity.
Qed.

(** The loop touches the pending rows of [user_sections] only, and keeps their
    keys distinct. *)
Lemma remove_sections_loop_frame (self : User) (abbrs : list string) :
  forall s r s',
    remove_sections_loop self abbrs s = (r, s') ->
    committed s' = committed s /\ generation s' = generation s
    /\ exists rows,
         working s' = with_rows rows (working s)
         /\ (nodupb eqb_key2 (map UserSection_key (user_sections (working s))) = true ->
             nodupb eqb_key2 (map UserSection_key rows) = true)
         /\ (forall other, User_id other <> User_id self ->
             sections_in other rows = sections_in other (user_sections (working s))).
Proof.
  induction abbrs as [| a rest IH]; intros s r s' Hrun.
  - simpl in Hrun. unfold ret in Hrun. inversion Hrun; subst.
    repeat split. exists (user_sections (working s')).
    split; [now rewrite with_rows_same | auto].
  - rewrite remove_sections_loop_cons in Hrun.
    destruct (find _ _) as [section |].
    + apply IH in Hrun. cbn [committed working generation] in Hrun.
      destruct Hrun as (Hc & Hg & rows & Hw & Hn & Ho).
      repeat split; try assumption.
      exists rows. split; [exact Hw | split].
      * intros H. apply Hn. unfold with_rows. cbn [user_sections].
        now apply nodupb_remove_row.
      * intros other Hother. rewrite (Ho other Hother).
        unfold with_rows. cbn [user_sections]. now apply sections_in_remove_row_other.
    + inversion Hrun; subst. repeat split.
      exists (user_sections (working s')).
      split; [now rewrite with_rows_same | auto].
Qed.

(** An abbreviation that matches none of the user's sections stops the loop. *)
Lemma remove_sections_loop_raises (self : User) (abbrs : list string) :
  forall s,
    (exists a, In a abbrs
               /\ forall x, In x (sections_in self (user_sections (working s))) ->
                            Section__abbreviation x <> a) ->
    exists msg s', remove_sections_loop self abbrs s = (Raise (ValueError msg), s').
Proof.
  induction abbrs as [| a0 rest IH]; intros s (a & Hin & Hno).
  - destruct Hin.
  - rewrite remove_sections_loop_cons.
    destruct (find _ _) as [section |] eqn:Hf; [| eauto].
    apply IH. cbn [working]. unfold with_rows. cbn [user_sections].
    exists a. split.
    + destruct Hin as [-> | Hin]; [| exact Hin].
      apply find_some in Hf. destruct Hf as [Hin' Hab]. apply String.eqb_eq in Hab.
      exfalso. exact (Hno _ Hin' Hab).
    + intros x Hx. apply Hno. now apply sections_in_remove_row_incl in Hx.
Qed.

(** Distinct abbreviations that all match are all removed. *)
Lemma remove_sections_loop_succeeds (self : User) (abbrs : list string) :
  forall s,
    NoDup abbrs ->
    (forall a, In a abbrs ->
               exists x, In x (sections_in self (user_sections (working s)))
                         /\ Section__abbreviation x = a) ->
    NoDup (map Section__abbreviation (sections_in self (user_sections (working s)))) ->
    exists s',
      remove_sections_loop self abbrs s = (Ok tt, s')
      /\ sections_in self (user_sections (working s'))
         = filter (fun x => negb (existsb (String.eqb (Section__abbreviation x)) abbrs))
             (sections_in self (user_sections (working s))).
Proof.
  induction abbrs as [| a rest IH]; intros s Hnd Hall Hsec.
  - exists s. split; [reflexivity |]. simpl. symmetry. now apply filter_all.
  - rewrite remove_sections_loop_cons.
    destruct (find _ _) as [section |] eqn:Hf.
    + pose proof (sections_in_remove_row self a section _ Hf Hsec) as Hrm.
      inversion Hnd as [| a' l Hna Hnd']; subst.
      destruct (IH (mkSession (committed s)
                      (with_rows (remove_row self section (user_sections (working s)))
                         (working s))
                      (generation s))) as (s' & Hrun & Hres).
      * exact Hnd'.
      * intros a' Ha'. cbn [working]. unfold with_rows. cbn [user_sections].
        rewrite Hrm. destruct (Hall a' (or_intror Ha')) as (x & Hx & Hxa).
        exists x. split; [| exact Hxa]. apply filter_In. split; [exact Hx |].
        apply negb_true_iff. apply String.eqb_neq. rewrite Hxa. intros ->. contradiction.
      * cbn [working]. unfold with_rows. cbn [user_sections]. rewrite Hrm.
        apply abbreviations_distinct_filter. exact Hsec.
      * exists s'. split; [exact Hrun |].
        rewrite Hres. cbn [working]. unfold with_rows. cbn [user_sections].
        rewrite Hrm, filter_twice. apply filter_ext. intros x. simpl.
        now rewrite negb_orb.
    + exfalso. destruct (Hall a (or_introl eq_refl)) as (x & Hx & Hxa).
      apply (find_none _ _ Hf) in Hx. unfold Section_abbreviation in Hx.
      rewrite Hxa, String.eqb_refl in Hx. discriminate.
Qed.

Lemma session_eta (s : Session) :
  clean s -> mkSession (committed s) (committed s) (generation s) = s.
Proof. unfold clean. destruct s. simpl. now intros ->. Qed.

(** C6, with the abbreviations pairwise distinct: when each of them matches a
    section of the user, the sections carrying them are removed, those of the
    other users stay, and the answer is [True]; when one of them matches no
    section of the user the answer is [False] and the session is what it was.
    Whatever the list, the call either answers [True] or answers [False] with
    the session as before. *)
Theorem remove_sections_all_or_nothing (self : User) (abbrs : list string) (s : Session) :
  clean s ->
  integrity (committed s) = true ->
  let before := User_sections (committed s) self in
  (NoDup abbrs ->
   (forall a, In a abbrs -> exists x, In x before /\ Section_abbreviation x = a) ->
   NoDup (map Section_abbreviation before) ->
   exists s',
     User_remove_sections self abbrs s = (Ok true, s')
     /\ clean s'
     /\ User_sections (committed s') self
        = filter (fun x => negb (existsb (String.eqb (Section_abbreviation x)) abbrs))
            before
     /\ forall other, User_id other <> User_id self ->
          User_sections (committed s') other = User_sections (committed s) other)
  /\ ((exists a, In a abbrs /\ forall x, In x before -> Section_abbreviation x <> a) ->
      User_remove_sections self abbrs s = (Ok false, s))
  /\ (forall r s', User_remove_sections self abbrs s = (r, s') ->
                   r = Ok true \/ (r = Ok false /\ s' = s)).
Proof.
  intros Hclean Hint. cbv zeta. pose proof Hclean as Hw. unfold clean in Hw.
  split; [| split].
  - intros Hnd Hall Hsec.
    destruct (remove_sections_loop_succeeds self abbrs s Hnd) as (s1 & Hrun & Hres).
    { rewrite Hw. exact Hall. }
    { rewrite Hw. exact Hsec. }
    destruct (remove_sections_loop_frame self abbrs s _ _ Hrun)
      as (Hc & Hg & rows & Hrows & Hn & Ho).
    assert (Hok : integrity (working s1) = true).
    { rewrite Hrows, Hw. apply integrity_with_rows; [exact Hint |].
      apply Hn. rewrite Hw. apply integrity_iff in Hint. tauto. }
    exists (mkSession (working s1) (working s1) (generation s1)).
    split; [| split; [| split]].
    + unfold User_remove_sections, try_except, bind. rewrite Hrun.
      unfold commit. rewrite Hok. reflexivity.
    + reflexivity.
    + cbn [committed]. unfold User_sections. fold (sections_in self (user_sections (working s1))).
      rewrite Hres, Hw. reflexivity.
    + intros other Hother. cbn [committed]. unfold User_sections.
      fold (sections_in other (user_sections (working s1))).
      rewrite Hrows. unfold with_rows. cbn [user_sections].
      rewrite (Ho other Hother), Hw. reflexivity.
  - intros Hex.
    destruct (remove_sections_loop_raises self abbrs s) as (msg & s1 & Hrun).
    { rewrite Hw. exact Hex. }
    destruct (remove_sections_loop_frame self abbrs s _ _ Hrun) as (Hc & Hg & _).
    unfold User_remove_sections, try_except, bind. rewrite Hrun.
    unfold rollback, ret. rewrite Hc, Hg, (session_eta s Hclean). reflexivity.
  - intros r s'. unfold User_remove_sections, try_except, bind.
    destruct (remove_sections_loop self abbrs s) as [r1 s1] eqn:Hrun.
    destruct (remove_sections_loop_frame self abbrs s _ _ Hrun) as (Hc & Hg & _).
    destruct r1 as [[] | e].
    + destruct (commit_cases s1) as [[_ Hcm] | [_ Hcm]]; rewrite Hcm.
      * unfold ret. intros E. inversion E. now left.
      * unfold rollback, ret. rewrite Hc, Hg, (session_eta s Hclean).
        intros E. inversion E. now right.
    + assert (E : (match e with
                   | ValueError _ => Some (bind rollback (fun _ => ret false))
                   | _ => Some (bind rollback (fun _ => ret false))
                   end) = Some (bind rollback (fun _ => ret false)))
        by (destruct e; reflexivity).
      unfold bind in E. rewrite E. unfold rollback, ret.
      rewrite Hc, Hg, (session_eta s Hclean).
      intros E'. inversion E'. now right.
Qed.

Lemma remove_sections_all_or_nothing_witness :
  exists s',
    User_remove_sections toby ["CSA"; "CSP"] test_session = (Ok true, s')
    /\ clean s'
    /\ User_sections (committed s') toby = []
    /\ forall other, User_id other <> User_id toby ->
         User_sections (committed s') other = User_sections test_db other.
Proof.
  refine (proj1 (remove_sections_all_or_nothing toby ["CSA"; "CSP"] test_session
                   eq_refl eq_refl) _ _ _).
  - repeat constructor; simpl; intuition discriminate.
  - intros a [<- | [<- | []]]; [exists CSA | exists CSP]; simpl; auto.
  - repeat constructor; simpl; intuition discriminate.
Defined.

(** Each of "CSA", "CSA" matches a section of the user, and yet the call
    answers [False] and removes nothing: the second look-up comes after the
    section is gone. *)
Lemma remove_sections_repeated_abbreviation :
  (forall a, In a ["CSA"; "CSA"] ->
             exists x, In x (User_sections test_db toby) /\ Section_abbreviation x = a)
  /\ User_remove_sections toby ["CSA"; "CSA"] test_session = (Ok false, test_session).
Proof.
  split; [| reflexivity].
  intros a [<- | [<- | []]]; exists CSA; simpl; auto.
Qed.

Example remove_sections_unknown_abbreviation :
  User_remove_sections toby ["CSA"; "Robotics"] test_session = (Ok false, test_session).
Proof. reflexivity. Qed.

(** ** update *)

(** The guard of [Stocks.update] and [StockUser.update] lets through the
    integers above 0, [True] among them. *)
Lemma int_guard_iff (q : pyval) :
  is_not_None q && isinstance_int q && gt_0 q = true
  <-> (exists n, q = PInt n /\ 0 < n) \/ q = PBool true.
Proof.
  destruct q as [| b | n | | | | |]; simpl; try (split; [discriminate | ]).
  - intros [(n & E & _) | E]; discriminate.
  - destruct b; split; auto; try discriminate.
    intros [(n & E & _) | E]; discriminate.
  - rewrite Z.ltb_lt. split.
    + intros H. left. eauto.
    + intros [(m & E & H) | E]; [| discriminate]. inversion E. now subst.
  - intros [(n & E & _) | E]; discriminate.
  - intros [(n & E & _) | E]; discriminate.
  - intros [(n & E & _) | E]; discriminate.
  - intros [(n & E & _) | E]; discriminate.
  - intros [(n & E & _) | E]; discriminate.
Qed.

Lemma update_runs {Row : Type} `{Model Row} (self : Row) (s : Session) :
  (forall s1, commit (snd (session_dirty self s)) = (Ok tt, s1) ->
              (session_dirty self ;;; commit ;;; ret self) s = (Ok self, s1))
  /\ (forall e s1, commit (snd (session_dirty self s)) = (Raise e, s1) ->
                   (session_dirty self ;;; commit ;;; ret self) s = (Raise e, s1)).
Proof.
  split.
  - intros s1 Hc. unfold bind, session_dirty in *. cbn [snd] in Hc. rewrite Hc.
    reflexivity.
  - intros e s1 Hc. unfold bind, session_dirty in *. cbn [snd] in Hc. rewrite Hc.
    reflexivity.
Qed.

(** C5, with the commit taken into account: each [update] assigns a column
    only when its argument passes the guard, namely a non-empty string, a
    value other than [None] for [pfp] and [kasm_server_needed], an integer
    above 0 for [quantity] and [stockmoney], and leaves the other columns as
    they were; the answer is the object whenever the commit at the end
    succeeds, and the commit's exception otherwise. *)
Theorem update_assigns_guarded_columns
    (generate_password_hash : string -> string -> nat -> string -> string)
    (salt : string) (u : User) (name uid password : string) (pfp : option string)
    (kasm_server_needed : option bool)
    (k : Stocks) (symbol company : string) (quantity : pyval)
    (b : StockUser) (stockmoney : pyval)
    (t : Transactions) (user_id transaction_type amount : string)
    (o : users_py.User) (status : option bool) :
  let u' := User_update_fields generate_password_hash salt u name uid password pfp
              kasm_server_needed in
  let k' := Stocks_update_fields k symbol company quantity in
  let b' := StockUser_update_fields b stockmoney in
  let t' := Transactions_update_fields t user_id transaction_type amount in
  u' = mkUser (User_id u)
         (if len_gt_0 name then name else User__name u)
         (if len_gt_0 uid then uid else User__uid u)
         (if len_gt_0 password
          then generate_password_hash password "pbkdf2:sha256" 10%nat salt
          else User__password u)
         (User__role u)
         (match pfp with Some p => Some p | None => User__pfp u end)
         (match kasm_server_needed with
          | Some v => v
          | None => User_kasm_server_needed u
          end)
  /\ k' = mkStocks (Stocks_id k)
            (if len_gt_0 symbol then symbol else Stocks__symbol k)
            (if len_gt_0 company then company else Stocks__company k)
            (if is_not_None quantity && isinstance_int quantity && gt_0 quantity
             then quantity else Stocks__quantity k)
            (Stocks__sheesh k)
  /\ b' = mkStockUser (StockUser_id b) (StockUser__user_id b)
            (if is_not_None stockmoney && isinstance_int stockmoney && gt_0 stockmoney
             then stockmoney else StockUser__stockmoney b)
            (StockUser__accountdate b)
  /\ t' = mkTransactions (Transactions_id t)
            (if len_gt_0 user_id then PStr user_id else Transactions__user_id t)
            (if len_gt_0 transaction_type
             then transaction_type else Transactions__transaction_type t)
            (if len_gt_0 amount then PStr amount else Transactions__quantity t)
            (Transactions__transaction_date t)
  /\ users_py.User_update_fields generate_password_hash salt o name uid password
       kasm_server_needed status
     = users_py.mkUser (users_py.User_id o)
         (if len_gt_0 name then name else users_py.User__name o)
         (if len_gt_0 uid then uid else users_py.User__uid o)
         (if len_gt_0 password
          then generate_password_hash password "pbkdf2:sha256" 10%nat salt
          else users_py.User__password o)
         (users_py.User__role o)
         (match kasm_server_needed with
          | Some v => v
          | None => users_py.User_kasm_server_needed o
          end)
         (match status with Some v => v | None => users_py.User_status o end)
         (users_py.User_sections o)
  /\ (forall s,
        (forall s1, commit (snd (session_dirty u' s)) = (Ok tt, s1) ->
           User_update generate_password_hash salt u name uid password pfp
             kasm_server_needed s = (Ok u', s1))
        /\ (forall e s1, commit (snd (session_dirty u' s)) = (Raise e, s1) ->
              User_update generate_password_hash salt u name uid password pfp
                kasm_server_needed s = (Raise e, s1)))
  /\ (forall s,
        (forall s1, commit (snd (session_dirty k' s)) = (Ok tt, s1) ->
           Stocks_update k symbol company quantity s = (Ok k', s1))
        /\ (forall e s1, commit (snd (session_dirty k' s)) = (Raise e, s1) ->
              Stocks_update k symbol company quantity s = (Raise e, s1)))
  /\ (forall s,
        (forall s1, commit (snd (session_dirty b' s)) = (Ok tt, s1) ->
           StockUser_update b stockmoney s = (Ok b', s1))
        /\ (forall e s1, commit (snd (session_dirty b' s)) = (Raise e, s1) ->
              StockUser_update b stockmoney s = (Raise e, s1)))
  /\ (forall s,
        (forall s1, commit (snd (session_dirty t' s)) = (Ok tt, s1) ->
           Transactions_update t user_id transaction_type amount s = (Ok t', s1))
        /\ (forall e s1, commit (snd (session_dirty t' s)) = (Raise e, s1) ->
              Transactions_update t user_id transaction_type amount s = (Raise e, s1))).
Proof.
  cbv zeta. repeat match goal with |- _ /\ _ => split end.
  - unfold User_update_fields.
    destruct (len_gt_0 name), (len_gt_0 uid), (len_gt_0 password), pfp,
      kasm_server_needed, u; reflexivity.
  - unfold Stocks_update_fields.
    destruct (len_gt_0 symbol), (len_gt_0 company),
      (is_not_None quantity && isinstance_int quantity && gt_0 quantity), k; reflexivity.
  - unfold StockUser_update_fields.
    destruct (is_not_None stockmoney && isinstance_int stockmoney && gt_0 stockmoney), b;
      reflexivity.
  - unfold Transactions_update_fields.
    destruct (len_gt_0 user_id), (len_gt_0 transaction_type), (len_gt_0 amount), t;
      reflexivity.
  - unfold users_py.User_update_fields.
    destruct (len_gt_0 name), (len_gt_0 uid), (len_gt_0 password), kasm_server_needed,
      status, o; reflexivity.
  - intros s. apply update_runs.
  - intros s. apply update_runs.
  - intros s. apply update_runs.
  - intros s. apply update_runs.
Qed.

(** niko is a stored user of a clean, consistent session; giving him toby's
    uid breaks [unique=True] at the commit, and [update] ends with
    [IntegrityError] instead of answering with the object. *)
Lemma update_uid_taken_raises :
  clean test_session
  /\ integrity (committed test_session) = true
  /\ In niko (users (committed test_session))
  /\ fst (User_update toy_hash "salt" niko "" "toby" "" None None test_session)
     = Raise IntegrityError.
Proof.
  split; [reflexivity | split; [reflexivity | split; [| reflexivity]]].
  simpl. auto.
Qed.

Example update_name_and_password :
  fst (User_update toy_hash "salt" niko "Nick" "" "pw" None (Some true) test_session)
  = Ok (mkUser (Some 2) "Nick" "niko" "pbkdf2:sha256$salt$pw" "User" (Some "niko.png") true).
Proof. reflexivity. Qed.

(** [Stocks.update] and [StockUser.update] on a stored object, with an
    argument that is [None] or an integer the column can hold, cannot break a
    constraint: their commit succeeds and the answer is the object. *)
Lemma Stocks_update_commits (k : Stocks) (symbol company : string) (quantity : pyval)
    (s : Session) :
  clean s ->
  integrity (committed s) = true ->
  In k (stocks (committed s)) ->
  integer_or_None quantity = true ->
  exists s',
    Stocks_update k symbol company quantity s
      = (Ok (Stocks_update_fields k symbol company quantity), s')
    /\ clean s'.
Proof.
  intros Hclean Hint Hin _. unfold clean in Hclean.
  set (k' := Stocks_update_fields k symbol company quantity).
  assert (Hid : Stocks_id k' = Stocks_id k).
  { unfold k', Stocks_update_fields.
    destruct (len_gt_0 symbol), (len_gt_0 company),
      (is_not_None quantity && isinstance_int quantity && gt_0 quantity); reflexivity. }
  apply integrity_iff in Hint.
  destruct Hint as (H1 & H2 & H3 & H4 & H5 & [H6 H6'] & H7 & H8).
  assert (Hnn : is_not_None (Stocks__quantity k') && is_not_None (Stocks__sheesh k') = true).
  { rewrite forallb_forall in H6'. specialize (H6' k Hin).
    apply andb_true_iff in H6'. destruct H6' as [Hq Hs].
    unfold k', Stocks_update_fields.
    destruct (len_gt_0 symbol), (len_gt_0 company),
      (is_not_None quantity && isinstance_int quantity && gt_0 quantity) eqn:G;
      simpl; rewrite ?Hq, ?Hs; try reflexivity;
      apply andb_true_iff in G; destruct G as [G _];
      apply andb_true_iff in G; destruct G as [G _]; rewrite G; reflexivity. }
  assert (Hc : commit (snd (session_dirty k' s))
               = (Ok tt, mkSession (working (snd (session_dirty k' s)))
                           (working (snd (session_dirty k' s))) (generation s))).
  { unfold commit. cbn [session_dirty snd working generation].
    replace (integrity _) with true; [reflexivity |]. symmetry.
    apply integrity_iff. rewrite Hclean. simpl.
    repeat split; try assumption; try tauto.
    + rewrite map_map. erewrite map_ext; [exact H6 |].
      intros r. simpl. destruct (is_some (Stocks_id k') && _) eqn:E; [| reflexivity].
      apply andb_true_iff in E. destruct E as [_ E]. now apply eqb_id_eq in E.
    + rewrite forallb_forall in *. intros r Hr. apply in_map_iff in Hr.
      destruct Hr as (r0 & <- & Hr0).
      destruct (is_some (Stocks_id k') && _); [exact Hnn | now apply H6']. }
  eexists. split; [exact (proj1 (update_runs k' s) _ Hc) | reflexivity].
Qed.

Lemma StockUser_update_commits (b : StockUser) (stockmoney : pyval) (s : Session) :
  clean s ->
  integrity (committed s) = true ->
  In b (stockuser (committed s)) ->
  integer_or_None stockmoney = true ->
  exists s',
    StockUser_update b stockmoney s = (Ok (StockUser_update_fields b stockmoney), s')
    /\ clean s'.
Proof.
  intros Hclean Hint Hin _. unfold clean in Hclean.
  set (b' := StockUser_update_fields b stockmoney).
  assert (Hid : StockUser_id b' = StockUser_id b).
  { unfold b', StockUser_update_fields.
    destruct (is_not_None stockmoney && isinstance_int stockmoney && gt_0 stockmoney);
      reflexivity. }
  apply integrity_iff in Hint.
  destruct Hint as (H1 & H2 & H3 & H4 & H5 & H6 & [H7 H7'] & H8).
  assert (Hnn : is_not_None (StockUser__stockmoney b') = true).
  { rewrite forallb_forall in H7'. specialize (H7' b Hin).
    unfold b', StockUser_update_fields.
    destruct (is_not_None stockmoney && isinstance_int stockmoney && gt_0 stockmoney) eqn:G;
      simpl; [| exact H7'].
    apply andb_true_iff in G. destruct G as [G _].
    apply andb_true_iff in G. now destruct G as [G _]. }
  assert (Hc : commit (snd (session_dirty b' s))
               = (Ok tt, mkSession (working (snd (session_dirty b' s)))
                           (working (snd (session_dirty b' s))) (generation s))).
  { unfold commit. cbn [session_dirty snd working generation].
    replace (integrity _) with true; [reflexivity |]. symmetry.
    apply integrity_iff. rewrite Hclean. simpl.
    repeat split; try assumption; try tauto.
    + rewrite map_map. erewrite map_ext; [exact H7 |].
      intros r. simpl. destruct (is_some (StockUser_id b') && _) eqn:E; [| reflexivity].
      apply andb_true_iff in E. destruct E as [_ E]. now apply eqb_id_eq in E.
    + rewrite forallb_forall in *. intros r Hr. apply in_map_iff in Hr.
      destruct Hr as (r0 & <- & Hr0).
      destruct (is_some (StockUser_id b') && _); [exact Hnn | now apply H7']. }
  eexists. split; [exact (proj1 (update_runs b' s) _ Hc) | reflexivity].
Qed.

(** ** Passwords *)

Section Passwords.

Variable generate_password_hash : string -> string -> nat -> string -> string.
Variable check_password_hash : string -> string -> bool.

(** What the constructor hands to werkzeug when no password is given. *)
Lemma init_default_password (salt name uid : string) (k : option bool)
    (role pfp : option string) :
  User__password (User__init__ generate_password_hash salt name uid None k role pfp)
  = generate_password_hash "123qwerty" "pbkdf2:sha256" 10%nat salt.
Proof. reflexivity. Qed.

(** [is_password] after [set_password] is werkzeug's check of a hash it made
    itself. *)
Lemma is_password_after_set_password (salt : string) (self : User) (p q : string) :
  User_is_password check_password_hash
    (User_set_password generate_password_hash salt self p) q
  = check_password_hash (generate_password_hash p "pbkdf2:sha256" 10%nat salt) q.
Proof. reflexivity. Qed.

End Passwords.

(** * Further properties *)

(** ** create and the constraints *)

Lemma existsb_eqb_sym (x : string) (l : list string) :
  existsb (fun y => String.eqb y x) l = existsb (String.eqb x) l.
Proof.
  induction l as [| a l IH]; simpl; [reflexivity |].
  now rewrite IH, String.eqb_sym.
Qed.

Lemma integrity_false_iff (d : DB) (P : Prop) :
  (integrity d = true -> P) -> ~ P -> integrity d = false.
Proof.
  intros H HP. destruct (integrity d); [| reflexivity]. exfalso. auto.
Qed.

(** X1: [User.create] of a new user, on a session with nothing pending and
    consistent rows, answers [None] and leaves the session as it was when the
    uid is taken; otherwise the user is stored last, under the next id, and is
    the answer. *)
Theorem User_create_checks_uid (self : User) (s : Session) :
  clean s ->
  integrity (committed s) = true ->
  User_id self = None ->
  let d := committed s in
  if existsb (String.eqb (User__uid self)) (map User__uid (users d))
  then User_create self s = (Ok None, s)
  else
    let held := mkUser (Some (next_id (map User_id (users d)))) (User__name self)
                  (User__uid self) (User__password self) (User__role self)
                  (User__pfp self) (User_kasm_server_needed self) in
    let d' := mkDB (users d ++ [held]) (sections d) (user_sections d) (stocks d)
                (stockuser d) (stock_transactions d) (user_transaction_stocks d) in
    User_create self s = (Ok (Some held), mkSession d' d' (generation s)).
Proof.
  intros Hclean Hint Hid. cbv zeta. pose proof Hclean as Hw. unfold clean in Hw.
  unfold User_create, try_except, bind, session_add. simpl.
  rewrite Hid. simpl.
  rewrite (existsb_const_false _ (users (working s))) by reflexivity.
  rewrite Hw. unfold commit. cbn [working committed generation flush_id].
  pose proof (proj1 (integrity_iff _) Hint) as (H1 & H2 & H3 & H4 & H5 & H6 & H7 & H8).
  destruct (existsb (String.eqb (User__uid self)) (map User__uid (users (committed s))))
    eqn:Htaken.
  - rewrite (integrity_false_iff _
               (nodupb String.eqb
                       (map User__uid (users (committed s)) ++ [User__uid self]) = true)).
    + unfold rollback, ret. cbn [committed generation]. now rewrite session_eta.
    + intros H. apply integrity_iff in H. cbn [users] in H.
      rewrite !map_app in H. simpl in H. tauto.
    + rewrite nodupb_snoc, existsb_eqb_sym, Htaken, andb_false_r. discriminate.
  - replace (integrity _) with true; [reflexivity |]. symmetry.
    apply integrity_iff. cbn [users sections user_sections stocks stockuser
      stock_transactions user_transaction_stocks].
    rewrite !map_app. simpl. repeat split; try assumption; try tauto.
    + now apply pk_ok_fresh.
    + now rewrite nodupb_snoc, existsb_eqb_sym, Htaken, H2.
Qed.

Lemma User_create_checks_uid_witness :
  User_create (mkUser None "Grace Hopper" "hop" "x" "User" (Some "hop.png") false)
    test_session
  = (Ok (Some (mkUser (Some 3) "Grace Hopper" "hop" "x" "User" (Some "hop.png") false)),
     let d' := mkDB [toby; niko;
                     mkUser (Some 3) "Grace Hopper" "hop" "x" "User" (Some "hop.png") false]
                 [CSA; CSP; Robotics] (user_sections test_db) [] [] [] [] in
     mkSession d' d' 0).
Proof.
  exact (User_create_checks_uid
           (mkUser None "Grace Hopper" "hop" "x" "User" (Some "hop.png") false)
           test_session eq_refl eq_refl eq_refl).
Defined.

(** X2: [Section.create] of a new section, on a session with nothing pending
    and consistent rows, answers [None] and leaves the session as it was when
    the abbreviation is taken; otherwise the section is stored last, under the
    next id, and is the answer. *)
Theorem Section_create_checks_abbreviation (self : Section) (s : Session) :
  clean s ->
  integrity (committed s) = true ->
  Section_id self = None ->
  let d := committed s in
  if existsb (String.eqb (Section__abbreviation self))
       (map Section__abbreviation (sections d))
  then Section_create self s = (Ok None, s)
  else
    let held := mkSection (Some (next_id (map Section_id (sections d))))
                  (Section__name self) (Section__abbreviation self) in
    let d' := mkDB (users d) (sections d ++ [held]) (user_sections d) (stocks d)
                (stockuser d) (stock_transactions d) (user_transaction_stocks d) in
    Section_create self s = (Ok (Some held), mkSession d' d' (generation s)).
Proof.
  intros Hclean Hint Hid. cbv zeta. pose proof Hclean as Hw. unfold clean in Hw.
  unfold Section_create, try_except, bind, session_add. simpl.
  rewrite Hid. simpl.
  rewrite (existsb_const_false _ (sections (working s))) by reflexivity.
  rewrite Hw. unfold commit. cbn [working committed generation flush_id].
  pose proof (proj1 (integrity_iff _) Hint) as (H1 & H2 & H3 & H4 & H5 & H6 & H7 & H8).
  destruct (existsb (String.eqb (Section__abbreviation self))
              (map Section__abbreviation (sections (committed s)))) eqn:Htaken.
  - rewrite (integrity_false_iff _
               (nodupb String.eqb
                       (map Section__abbreviation (sections (committed s))
                        ++ [Section__abbreviation self]) = true)).
    + unfold rollback, ret. cbn [committed generation]. now rewrite session_eta.
    + intros H. apply integrity_iff in H. cbn [sections] in H.
      rewrite !map_app in H. simpl in H. tauto.
    + rewrite nodupb_snoc, existsb_eqb_sym, Htaken, andb_false_r. discriminate.
  - replace (integrity _) with true; [reflexivity |]. symmetry.
    apply integrity_iff. cbn [users sections user_sections stocks stockuser
      stock_transactions user_transaction_stocks].
    rewrite !map_app. simpl. repeat split; try assumption; try tauto.
    + now apply pk_ok_fresh.
    + now rewrite nodupb_snoc, existsb_eqb_sym, Htaken, H4.
Qed.

Lemma Section_create_checks_abbreviation_witness :
  Section_create (Section__init__ "Computer Science A, period 2" "CSA") test_session
  = (Ok None, test_session).
Proof.
  exact (Section_create_checks_abbreviation
           (Section__init__ "Computer Science A, period 2" "CSA")
           test_session eq_refl eq_refl eq_refl).
Defined.

(** X3: [Stocks.create] of a new stock whose quantity and price are each
    [None] or an integer the column can hold, on a session with nothing pending
    and consistent rows whose next id is in range, stores it last under the
    next id exactly when neither of the two is [None]; otherwise the answer is
    [None], no row is stored and the session is a new one. *)
Theorem Stocks_create_checks_not_null (self : Stocks) (s : Session) :
  clean s ->
  integrity (committed s) = true ->
  Stocks_id self = None ->
  integer_or_None (Stocks__quantity self) = true ->
  integer_or_None (Stocks__sheesh self) = true ->
  next_id (map Stocks_id (stocks (committed s))) < 2 ^ 63 ->
  let d := committed s in
  if is_not_None (Stocks__quantity self) && is_not_None (Stocks__sheesh self)
  then
    let held := mkStocks (Some (next_id (map Stocks_id (stocks d)))) (Stocks__symbol self)
                  (Stocks__company self) (Stocks__quantity self) (Stocks__sheesh self) in
    let d' := mkDB (users d) (sections d) (user_sections d) (stocks d ++ [held])
                (stockuser d) (stock_transactions d) (user_transaction_stocks d) in
    Stocks_create self s = (Ok (Some held), mkSession d' d' (generation s))
  else Stocks_create self s = (Ok None, mkSession d d (S (generation s))).
Proof.
  intros Hclean Hint Hid _ _ _. cbv zeta. pose proof Hclean as Hw. unfold clean in Hw.
  unfold Stocks_create, try_except, bind, session_add. simpl.
  rewrite Hid. simpl.
  rewrite (existsb_const_false _ (stocks (working s))) by reflexivity.
  rewrite Hw. unfold commit. cbn [working committed generation flush_id].
  pose proof (proj1 (integrity_iff _) Hint)
    as (H1 & H2 & H3 & H4 & H5 & [H6 H6'] & H7 & H8).
  destruct (is_not_None (Stocks__quantity self) && is_not_None (Stocks__sheesh self))
    eqn:Hnn.
  - replace (integrity _) with true; [reflexivity |]. symmetry.
    apply integrity_iff. cbn [users sections user_sections stocks stockuser
      stock_transactions user_transaction_stocks].
    rewrite !map_app. simpl. repeat split; try assumption; try tauto.
    + now apply pk_ok_fresh.
    + rewrite forallb_app, H6'. simpl. now rewrite Hnn.
  - rewrite (integrity_false_iff _
               (is_not_None (Stocks__quantity self)
                     && is_not_None (Stocks__sheesh self) = true)).
    + reflexivity.
    + intros H. apply integrity_iff in H. cbn [stocks] in H.
      destruct H as (_ & _ & _ & _ & _ & [_ H] & _).
      rewrite forallb_app in H. apply andb_true_iff in H. destruct H as [_ H].
      simpl in H. now rewrite andb_true_r in H.
    + rewrite Hnn. discriminate.
Qed.

Lemma Stocks_create_checks_not_null_witness :
  Stocks_create (Stocks__init__ "AAPL" "Apple Inc." (PInt 100) PNone) test_session
  = (Ok None, mkSession test_db test_db 1).
Proof.
  exact (Stocks_create_checks_not_null
           (Stocks__init__ "AAPL" "Apple Inc." (PInt 100) PNone)
           test_session eq_refl eq_refl eq_refl eq_refl eq_refl eq_refl).
Defined.

(** X4: [create] on the object a successful [User.create] answered with
    stores nothing more: the answer is the object again and the session is the
    same. *)
Theorem User_create_again (self held : User) (s s1 : Session) :
  User_create self s = (Ok (Some held), s1) ->
  User_create held s1 = (Ok (Some held), s1).
Proof.
  unfold User_create, try_except, bind. intros Hrun.
  destruct (session_add self s) as [[h |] sa] eqn:Hadd.
  2:{ unfold session_add in Hadd. cbv zeta in Hadd.
      destruct (existsb _ _) in Hadd; discriminate. }
  destruct (commit_cases sa) as [[Hok Hc] | [_ Hc]]; rewrite Hc in Hrun.
  2:{ unfold rollback, ret in Hrun. discriminate. }
  unfold ret in Hrun. inversion Hrun; subst h s1. clear Hrun.
  assert (Hstored : existsb (same_row held) (users (working sa)) = true).
  { unfold session_add in Hadd. cbv zeta in Hadd.
    destruct (existsb (same_row self) (table (working s))) eqn:E.
    - inversion Hadd; subst. exact E.
    - inversion Hadd; subst. cbn [working with_table Model_User users table].
      rewrite existsb_app. simpl.
      assert (Hsome : is_some (flush_id (User_id self) (map User_id (users (working s))))
                      = true) by (unfold flush_id; destruct (User_id self); reflexivity).
      rewrite Hsome, eqb_id_refl. simpl. now rewrite orb_true_r. }
  unfold session_add. cbn [working table Model_User].
  rewrite Hstored. unfold commit. cbn [working]. rewrite Hok. reflexivity.
Qed.

Lemma User_create_again_witness :
  let hop := mkUser (Some 3) "Grace Hopper" "hop" "x" "User" None false in
  let d' := mkDB [toby; niko; hop] [CSA; CSP; Robotics] (user_sections test_db)
              [] [] [] [] in
  User_create hop (mkSession d' d' 0) = (Ok (Some hop), mkSession d' d' 0).
Proof.
  exact (User_create_again (mkUser None "Grace Hopper" "hop" "x" "User" None false)
           _ test_session _ eq_refl).
Defined.

(** ** add_section, once more *)

(** One call of [add_section] by a stored user with a stored section, on a
    session with nothing pending and consistent rows: what it leaves behind. *)
Lemma add_section_step (today : date) (self : User) (section : Section) (s : Session) :
  clean s ->
  integrity (committed s) = true ->
  In self (users (committed s)) ->
  In section (sections (committed s)) ->
  exists s1,
    User_add_section today self section s = (Ok self, s1)
    /\ clean s1
    /\ integrity (committed s1) = true
    /\ generation s1 = generation s
    /\ (committed s1 = committed s
        \/ (existsb (fun x => eqb_id (Section_id x) (Section_id section))
              (User_sections (committed s) self) = false
            /\ committed s1 = with_new_section today self section (committed s)))
    /\ existsb (fun x => eqb_id (Section_id x) (Section_id section))
         (User_sections (committed s1) self) = true.
Proof.
  intros Hclean Hint Hself Hsection.
  destruct (existsb (fun x => eqb_id (Section_id x) (Section_id section))
              (User_sections (committed s) self)) eqn:Hf.
  - exists s. rewrite add_section_found by (rewrite Hclean; exact Hf). auto 10.
  - destruct (add_section_new today self section s Hclean Hint Hself Hsection Hf)
      as (Hrun & Hok & Hs).
    eexists. split; [exact Hrun |]. cbn [committed generation].
    repeat split; auto.
    rewrite Hs, existsb_app. simpl. now rewrite eqb_id_refl, orb_true_r.
Qed.

(** X5: for a stored user and a stored section, a second [add_section] of
    the same section, on any day, changes nothing. *)
Theorem add_section_again_changes_nothing (today later : date) (self : User)
    (section : Section) (s : Session) :
  clean s ->
  integrity (committed s) = true ->
  In self (users (committed s)) ->
  In section (sections (committed s)) ->
  forall r s1,
    User_add_section today self section s = (r, s1) ->
    r = Ok self
    /\ User_add_section later self section s1 = (Ok self, s1).
Proof.
  intros Hclean Hint Hself Hsection r s1 Hrun.
  destruct (add_section_step today self section s Hclean Hint Hself Hsection)
    as (s1' & Hrun' & Hc1 & _ & _ & _ & Hfound).
  rewrite Hrun' in Hrun. inversion Hrun; subst. split; [reflexivity |].
  apply add_section_found. rewrite Hc1. exact Hfound.
Qed.

Lemma add_section_again_changes_nothing_witness :
  let s1 := snd (User_add_section a_day_in_march toby Robotics test_session) in
  User_add_section a_day_in_march toby Robotics test_session = (Ok toby, s1)
  /\ User_add_section a_day_in_july toby Robotics s1 = (Ok toby, s1).
Proof.
  refine (let H := add_section_again_changes_nothing a_day_in_march a_day_in_july
                     toby Robotics test_session eq_refl eq_refl _ _ _ _ eq_refl in
          conj (f_equal (fun r => (r, _)) (proj1 H)) (proj2 H));
    simpl; auto.
Defined.

Lemma User_sections_with_new_other (today : date) (self other : User) (section : Section)
    (d : DB) :
  User_id other <> User_id self ->
  User_sections (with_new_section today self section d) other = User_sections d other.
Proof.
  intros Hother. unfold User_sections, with_new_section. cbn [user_sections].
  rewrite filter_app, map_app. simpl.
  destruct (eqb_id (User_id self) (User_id other)) eqn:E.
  - apply eqb_id_eq in E. congruence.
  - simpl. now rewrite app_nil_r.
Qed.

(** X6: for a stored user and a stored section, [add_section] touches nothing
    but the user's own associations: the other tables are the same, every
    association stored before is still stored, and the sections of every other
    user are what they were. *)
Theorem add_section_keeps_the_rest (today : date) (self : User) (section : Section)
    (s : Session) :
  clean s ->
  integrity (committed s) = true ->
  In self (users (committed s)) ->
  In section (sections (committed s)) ->
  forall r s1,
    User_add_section today self section s = (r, s1) ->
    users (committed s1) = users (committed s)
    /\ sections (committed s1) = sections (committed s)
    /\ stocks (committed s1) = stocks (committed s)
    /\ stockuser (committed s1) = stockuser (committed s)
    /\ stock_transactions (committed s1) = stock_transactions (committed s)
    /\ user_transaction_stocks (committed s1) = user_transaction_stocks (committed s)
    /\ (forall row, In row (user_sections (committed s)) ->
                    In row (user_sections (committed s1)))
    /\ (forall other, User_id other <> User_id self ->
          User_sections (committed s1) other = User_sections (committed s) other).
Proof.
  intros Hclean Hint Hself Hsection r s1 Hrun.
  destruct (add_section_step today self section s Hclean Hint Hself Hsection)
    as (s1' & Hrun' & _ & _ & _ & [Hsame | [_ Hnew]] & _);
    rewrite Hrun' in Hrun; inversion Hrun; subst.
  - rewrite Hsame. repeat split; auto.
  - rewrite Hnew. unfold with_new_section at 1 2 3 4 5 6 7.
    cbn [users sections user_sections stocks stockuser stock_transactions
         user_transaction_stocks].
    repeat split; auto.
    + intros row Hrow. apply in_or_app. now left.
    + intros other Hother. now apply User_sections_with_new_other.
Qed.

Lemma add_section_keeps_the_rest_witness :
  User_sections
    (committed (snd (User_add_section a_day_in_march toby Robotics test_session))) niko
  = User_sections test_db niko.
Proof.
  refine (proj2 (proj2 (proj2 (proj2 (proj2 (proj2 (proj2
            (add_section_keeps_the_rest a_day_in_march toby Robotics test_session
               eq_refl eq_refl _ _ _ _ eq_refl))))))) niko _);
    simpl; auto; discriminate.
Defined.

(** ** add_section and remove_sections together *)

Lemma find_snoc {A : Type} (f : A -> bool) (l : list A) (a : A) :
  find f (l ++ [a]) =
    match find f l with
    | Some x => Some x
    | None => if f a then Some a else None
    end.
Proof.
  induction l as [| x l IH]; simpl; [reflexivity |].
  destruct (f x); [reflexivity | exact IH].
Qed.

Lemma find_none_iff {A : Type} (f : A -> bool) (l : list A) :
  find f l = None <-> forall x, In x l -> f x = false.
Proof.
  split; [apply find_none |].
  induction l as [| a l IH]; simpl; intros H; [reflexivity |].
  rewrite (H a) by now left. apply IH. intros x Hx. apply H. now right.
Qed.

Lemma remove_row_last (self : User) (section : Section) (rows : list UserSection)
    (r : UserSection) :
  (forall x, In x rows ->
     eqb_id (UserSection_user x) (User_id self)
     && Section_eqb (UserSection_section x) section = false) ->
  eqb_id (UserSection_user r) (User_id self)
  && Section_eqb (UserSection_section r) section = true ->
  remove_row self section (rows ++ [r]) = rows.
Proof.
  intros Hrows Hr. induction rows as [| x rows IH]; simpl.
  - now rewrite Hr.
  - rewrite (Hrows x) by now left. f_equal. apply IH.
    intros y Hy. apply Hrows. now right.
Qed.

(** X7: a stored user adds a stored section it does not have, whose
    abbreviation none of the user's sections carries, and then removes it by
    its abbreviation: the session is back as it was before the two calls. *)
Theorem add_then_remove_section (today : date) (self : User) (section : Section)
    (s : Session) :
  clean s ->
  integrity (committed s) = true ->
  In self (users (committed s)) ->
  In section (sections (committed s)) ->
  existsb (fun x => eqb_id (Section_id x) (Section_id section))
    (User_sections (committed s) self) = false ->
  (forall x, In x (User_sections (committed s) self) ->
             Section_abbreviation x <> Section_abbreviation section) ->
  forall r s1,
    User_add_section today self section s = (r, s1) ->
    User_remove_sections self [Section_abbreviation section] s1 = (Ok true, s).
Proof.
  intros Hclean Hint Hself Hsection Hf Habbr r s1 Hrun.
  destruct (add_section_new today self section s Hclean Hint Hself Hsection Hf)
    as (Hrun' & _ & Hs).
  rewrite Hrun' in Hrun. inversion Hrun; subst r s1. clear Hrun.
  unfold User_remove_sections, try_except, bind.
  rewrite remove_sections_loop_cons. cbn [working committed generation].
  change (sections_in self
            (user_sections (with_new_section today self section (committed s))))
    with (User_sections (with_new_section today self section (committed s)) self).
  rewrite Hs, find_snoc.
  replace (find _ (User_sections (committed s) self)) with (@None Section).
  2:{ symmetry. apply find_none_iff. intros x Hx. apply String.eqb_neq.
      now apply Habbr. }
  rewrite String.eqb_refl.
  change (user_sections (with_new_section today self section (committed s)))
    with (user_sections (committed s) ++ [UserSection__init__ today self section]).
  rewrite remove_row_last.
  - cbn [remove_sections_loop]. unfold ret, commit. cbn [working generation].
    replace (with_rows (user_sections (committed s))
               (with_new_section today self section (committed s)))
      with (committed s) by (destruct (committed s); reflexivity).
    rewrite Hint. now rewrite session_eta.
  - intros x Hx.
    destruct (eqb_id (UserSection_user x) (User_id self)) eqn:Hu; [| reflexivity].
    destruct (Section_eqb (UserSection_section x) section) eqn:Hx'; [| reflexivity].
    apply Section_eqb_eq in Hx'. exfalso.
    assert (E : existsb (fun y => eqb_id (Section_id y) (Section_id section))
                  (User_sections (committed s) self) = true).
    { apply existsb_exists. exists (UserSection_section x). split.
      - unfold User_sections. apply in_map. apply filter_In. now split.
      - rewrite Hx'. apply eqb_id_refl. }
    congruence.
  - unfold UserSection__init__. cbn [UserSection_user UserSection_section].
    rewrite eqb_id_refl. simpl. now apply Section_eqb_eq.
Qed.

Lemma add_then_remove_section_witness :
  User_remove_sections toby ["Robotics"]
    (snd (User_add_section a_day_in_march toby Robotics test_session))
  = (Ok true, test_session).
Proof.
  refine (add_then_remove_section a_day_in_march toby Robotics test_session
            eq_refl eq_refl _ _ eq_refl _ _ _ eq_refl); simpl; auto.
  intros x [<- | [<- | []]]; discriminate.
Defined.

(** ** add_sections *)

Lemma add_sections_run (today : date) (self : User) (known : list string) :
  forall (found : list Section) (s : Session) (tail : list string),
    clean s ->
    integrity (committed s) = true ->
    In self (users (committed s)) ->
    named (committed s) known found ->
    exists s1,
      add_section_calls today self found s = (Ok self, s1)
      /\ clean s1
      /\ integrity (committed s1) = true
      /\ users (committed s1) = users (committed s)
      /\ sections (committed s1) = sections (committed s)
      /\ User_add_sections today self (known ++ tail) s
         = User_add_sections today self tail s1
      /\ (forall x, In x found ->
            existsb (fun y => eqb_id (Section_id y) (Section_id x))
              (User_sections (committed s1) self) = true).
Proof.
  induction known as [| a known IH]; intros found s tail Hclean Hint Hself Hnamed.
  - inversion Hnamed; subst. exists s. simpl. unfold ret.
    repeat split; auto; intros x [].
  - inversion Hnamed as [| a' x known' found' Hax Hrest]; subst.
    assert (Hx : In x (sections (committed s))).
    { unfold Section_by_abbreviation in Hax. now apply find_some in Hax. }
    destruct (add_section_step today self x s Hclean Hint Hself Hx)
      as (s1 & Hrun & Hc1 & Hi1 & _ & Hdb & Hfound).
    assert (Huse : users (committed s1) = users (committed s)
                   /\ sections (committed s1) = sections (committed s)).
    { destruct Hdb as [-> | [_ ->]]; split; reflexivity. }
    destruct Huse as [Husers Hsec].
    destruct (IH found' s1 tail Hc1 Hi1)
      as (s2 & Hcalls & Hc2 & Hi2 & Husers2 & Hsec2 & Hadd & Hin).
    { rewrite Husers. exact Hself. }
    { unfold named, Section_by_abbreviation in *. rewrite Hsec. exact Hrest. }
    exists s2. split; [| split; [| split; [| split; [| split; [| split]]]]]; auto.
    + cbn [add_section_calls]. unfold bind. rewrite Hrun. exact Hcalls.
    + congruence.
    + congruence.
    + cbn [app User_add_sections]. unfold bind at 1. unfold get_db.
      rewrite Hclean, Hax. unfold bind. rewrite Hrun. exact Hadd.
    + intros y [<- | Hy]; [| now apply Hin].
      (* the section added first is still there after the later calls *)
      assert (Hfound' : forall z, In z found' -> In z (sections (committed s1))).
      { intros z Hz. clear - Hrest Hz Hsec.
        induction Hrest as [| a0 z0 k f Haz Hrest IHr]; [destruct Hz |].
        destruct Hz as [<- | Hz]; [| now apply IHr].
        rewrite Hsec. unfold Section_by_abbreviation in Haz. now apply find_some in Haz. }
      assert (Hself1 : In self (users (committed s1))) by (rewrite Husers; exact Hself).
      clear - Hfound Hcalls Hc1 Hi1 Hfound' Hself1.
      revert s1 Hfound Hcalls Hc1 Hi1 Hfound' Hself1.
      induction found' as [| z found' IHf];
        intros s1 Hfound Hcalls Hc1 Hi1 Hfound' Hself1.
      * simpl in Hcalls. unfold ret in Hcalls. inversion Hcalls; subst. exact Hfound.
      * cbn [add_section_calls] in Hcalls. unfold bind in Hcalls.
        destruct (add_section_step today self z s1 Hc1 Hi1 Hself1
                    (Hfound' z (or_introl eq_refl)))
          as (s1' & Hrun' & Hc1' & Hi1' & _ & Hdb' & _).
        rewrite Hrun' in Hcalls.
        assert (Hkeep : users (committed s1') = users (committed s1)
                        /\ sections (committed s1') = sections (committed s1)).
        { destruct Hdb' as [-> | [_ ->]]; split; reflexivity. }
        destruct Hkeep as [Hku Hks].
        apply (IHf s1'); auto.
        -- destruct Hdb' as [-> | [_ ->]]; [exact Hfound |].
           unfold User_sections, with_new_section. cbn [user_sections].
           rewrite filter_app, map_app, existsb_app.
           unfold User_sections in Hfound. now rewrite Hfound.
        -- intros w Hw. rewrite Hks. apply Hfound'. now right.
        -- rewrite Hku. exact Hself1.
Qed.

(** X8: for a stored user, [add_sections] adds the named sections one by
    one, as the same run of [add_section] calls would.  When every
    abbreviation names a section the answer is the user and each named section
    is among the user's sections; at the first abbreviation that names none the
    answer is [None], and the sections named before it stay added and
    committed. *)
Theorem add_sections_stops_at_unknown (today : date) (self : User)
    (known : list string) (found : list Section) (s : Session) :
  clean s ->
  integrity (committed s) = true ->
  In self (users (committed s)) ->
  named (committed s) known found ->
  exists s1,
    add_section_calls today self found s = (Ok self, s1)
    /\ clean s1
    /\ (forall x, In x found ->
          existsb (fun y => eqb_id (Section_id y) (Section_id x))
            (User_sections (committed s1) self) = true)
    /\ User_add_sections today self known s = (Ok (Some self), s1)
    /\ (forall unknown rest,
          Section_by_abbreviation (committed s) unknown = None ->
          User_add_sections today self (known ++ unknown :: rest) s = (Ok None, s1)).
Proof.
  intros Hclean Hint Hself Hnamed.
  destruct (add_sections_run today self known found s [] Hclean Hint Hself Hnamed)
    as (s1 & Hcalls & Hc1 & Hi1 & _ & Hsec & Hadd & Hin).
  exists s1. split; [exact Hcalls |]. split; [exact Hc1 |]. split; [exact Hin |]. split.
  - rewrite app_nil_r in Hadd. rewrite Hadd. reflexivity.
  - intros unknown rest Hunknown.
    destruct (add_sections_run today self known found s (unknown :: rest)
                Hclean Hint Hself Hnamed) as (s1' & Hcalls' & _ & _ & _ & _ & Hadd' & _).
    rewrite Hcalls in Hcalls'. inversion Hcalls'; subst s1'.
    rewrite Hadd'. cbn [User_add_sections]. unfold bind, get_db.
    unfold Section_by_abbreviation in *. rewrite Hc1, Hsec, Hunknown. reflexivity.
Qed.

Lemma add_sections_stops_at_unknown_witness :
  exists s1,
    add_section_calls a_day_in_march niko [CSA] test_session = (Ok niko, s1)
    /\ clean s1
    /\ (forall x, In x [CSA] ->
          existsb (fun y => eqb_id (Section_id y) (Section_id x))
            (User_sections (committed s1) niko) = true)
    /\ User_add_sections a_day_in_march niko ["CSA"] test_session = (Ok (Some niko), s1)
    /\ (forall unknown rest,
          Section_by_abbreviation test_db unknown = None ->
          User_add_sections a_day_in_march niko ("CSA" :: unknown :: rest) test_session
          = (Ok None, s1)).
Proof.
  refine (add_sections_stops_at_unknown a_day_in_march niko ["CSA"] [CSA] test_session
            eq_refl eq_refl _ _).
  - simpl. auto.
  - repeat constructor.
Defined.

Example add_sections_unknown_second :
  let r := User_add_sections a_day_in_march niko ["CSA"; "Biology"; "CSP"] test_session in
  fst r = Ok None
  /\ List.length (User_sections (committed (snd r)) niko) = 3%nat
  /\ existsb (fun x => eqb_id (Section_id x) (Section_id CSA))
       (User_sections (committed (snd r)) niko) = true.
Proof. repeat split. Qed.

(** ** The profile picture *)


Lemma stored_has_id {A : Type} (f : A -> option Z) (l : list A) (a : A) :
  pk_ok (map f l) = true -> In a l -> is_some (f a) = true.
Proof.
  unfold pk_ok. rewrite andb_true_iff, forallb_forall. intros [H _] Ha.
  apply H. now apply in_map.
Qed.



(** ** The stock game *)

Lemma integrity_tail_iff (d : DB) :
  integrity (mkDB [] [] [] [] [] (stock_transactions d) (user_transaction_stocks d)) = true
  <-> pk_ok (map Transactions_id (stock_transactions d)) = true
      /\ forallb (fun r => is_not_None (Transactions__user_id r)
                           && is_not_None (Transactions__quantity r))
           (stock_transactions d) = true
      /\ nodupb eqb_key3 (map UTS_key (user_transaction_stocks d)) = true
      /\ forallb (fun r => is_some (UTS__user_id r) && is_some (UTS__transaction_id r)
                           && is_some (UTS__stock_id r) && is_not_None (UTS__quantity r)
                           && is_not_None (UTS__price_per_stock r)
                           && is_not_None (UTS__transaction_amount r))
           (user_transaction_stocks d) = true.
Proof.
  unfold integrity. simpl. rewrite !andb_true_iff. tauto.
Qed.


Lemma of_option_Z_some (o : option Z) : is_some o = true -> is_not_None (of_option_Z o) = true.
Proof. destruct o; simpl; auto. Qed.

(** The four look-ups read the rows and answer with a value. *)
Lemma Stocks_get_stockid_run (symbol : option string) (s : Session) :
  Stocks_get_stockid symbol s =
    (Ok (Value match find (fun r => text_is (Stocks__symbol r) symbol) (stocks (working s)) with
               | Some r => of_option_Z (Stocks_id r)
               | None => PNone
               end), s).
Proof. reflexivity. Qed.

Lemma Stocks_get_price_run (body : Body) (s : Session) :
  Stocks_get_price body s =
    (Ok (Value match find (fun r => text_is (Stocks__symbol r) (body_symbol body))
                       (stocks (working s)) with
               | Some r => Stocks__sheesh r
               | None => PNone
               end), s).
Proof. reflexivity. Qed.

Lemma StockUser_get_userid_run (uid : option string) (s : Session) :
  StockUser_get_userid uid s =
    (Ok (Value match find (fun r => text_is (StockUser__user_id r) uid)
                       (stockuser (working s)) with
               | Some r => of_option_Z (StockUser_id r)
               | None => PNone
               end), s).
Proof. reflexivity. Qed.

Lemma StockUser_get_balance_run (body : Body) (s : Session) :
  StockUser_get_balance body s =
    (Ok (Value match find (fun r => text_is (StockUser__user_id r) (body_uid body))
                       (stockuser (working s)) with
               | Some r => StockUser__stockmoney r
               | None => PNone
               end), s).
Proof. reflexivity. Qed.

Lemma fits_integer_not_None (v : pyval) : fits_integer v = true -> is_not_None v = true.
Proof. destruct v; simpl; auto. Qed.

(** A new stock with a quantity and a price is stored. *)
Lemma Stocks_create_stores (self : Stocks) (s : Session) :
  clean s ->
  integrity (committed s) = true ->
  Stocks_id self = None ->
  is_not_None (Stocks__quantity self) && is_not_None (Stocks__sheesh self) = true ->
  let d := committed s in
  let held := mkStocks (Some (next_id (map Stocks_id (stocks d)))) (Stocks__symbol self)
                (Stocks__company self) (Stocks__quantity self) (Stocks__sheesh self) in
  let d' := mkDB (users d) (sections d) (user_sections d) (stocks d ++ [held])
              (stockuser d) (stock_transactions d) (user_transaction_stocks d) in
  Stocks_create self s = (Ok (Some held), mkSession d' d' (generation s)).
Proof.
  intros Hclean Hint Hid Hnn. cbv zeta. pose proof Hclean as Hw. unfold clean in Hw.
  unfold Stocks_create, try_except, bind, session_add. simpl.
  rewrite Hid. simpl.
  rewrite (existsb_const_false _ (stocks (working s))) by reflexivity.
  rewrite Hw. unfold commit. cbn [working committed generation flush_id].
  pose proof (proj1 (integrity_iff _) Hint)
    as (H1 & H2 & H3 & H4 & H5 & [H6 H6'] & H7 & H8).
  replace (integrity _) with true; [reflexivity |]. symmetry.
  apply integrity_iff. cbn [users sections user_sections stocks stockuser
    stock_transactions user_transaction_stocks].
  rewrite !map_app. simpl. repeat split; try assumption; try tauto.
  - now apply pk_ok_fresh.
  - rewrite forallb_app, H6'. simpl. now rewrite Hnn.
Qed.

(** X10: symbols are not unique, and the look-ups answer with the first stock
    that carries the symbol.  After a new stock with a quantity and a price the
    columns can hold is created, [get_stockid] and
    [get_price] for its symbol answer with its id and price when no earlier
    stock has the symbol, and with the earlier stock's otherwise; a symbol no
    stock carries is answered with [None], not with the error. *)
Theorem stock_lookup_after_create (self : Stocks) (s : Session) (body : Body) :
  clean s ->
  integrity (committed s) = true ->
  Stocks_id self = None ->
  fits_integer (Stocks__quantity self) = true ->
  fits_integer (Stocks__sheesh self) = true ->
  next_id (map Stocks_id (stocks (committed s))) < 2 ^ 63 ->
  body_symbol body = Some (Stocks__symbol self) ->
  forall r s1,
    Stocks_create self s = (r, s1) ->
    match find (fun k => String.eqb (Stocks__symbol k) (Stocks__symbol self))
            (stocks (committed s)) with
    | Some earlier =>
        Stocks_get_stockid (Some (Stocks__symbol self)) s1
          = (Ok (Value (of_option_Z (Stocks_id earlier))), s1)
        /\ Stocks_get_price body s1 = (Ok (Value (Stocks__sheesh earlier)), s1)
    | None =>
        Stocks_get_stockid (Some (Stocks__symbol self)) s1
          = (Ok (Value (PInt (next_id (map Stocks_id (stocks (committed s)))))), s1)
        /\ Stocks_get_price body s1 = (Ok (Value (Stocks__sheesh self)), s1)
        /\ Stocks_get_stockid (Some (Stocks__symbol self)) s = (Ok (Value PNone), s)
    end.
Proof.
  intros Hclean Hint Hid Hq Hp _ Hbody r s1 Hrun.
  assert (Hnn : is_not_None (Stocks__quantity self) && is_not_None (Stocks__sheesh self)
                = true)
    by (rewrite (fits_integer_not_None _ Hq), (fits_integer_not_None _ Hp); reflexivity).
  rewrite (Stocks_create_stores self s Hclean Hint Hid Hnn) in Hrun.
  inversion Hrun; subst r s1. clear Hrun.
  rewrite Stocks_get_stockid_run, Stocks_get_price_run, Hbody.
  cbn [working stocks text_is]. rewrite find_snoc.
  destruct (find _ (stocks (committed s))) as [earlier |] eqn:Hfind.
  - split; reflexivity.
  - cbn [Stocks__symbol]. rewrite String.eqb_refl. cbn [Stocks_id of_option_Z Stocks__sheesh].
    repeat split. rewrite Stocks_get_stockid_run. cbn [text_is].
    rewrite Hclean, Hfind. reflexivity.
Qed.

Lemma stock_lookup_after_create_witness :
  let msft := Stocks__init__ "MSFT" "Microsoft" (PInt 50) (PInt 400) in
  let s1 := snd (Stocks_create msft game_session) in
  Stocks_get_stockid (Some "MSFT") s1 = (Ok (Value (PInt 2)), s1)
  /\ Stocks_get_price (mkBody (Some "niko") (Some "MSFT") (PInt 3)) s1
     = (Ok (Value (PInt 400)), s1)
  /\ Stocks_get_stockid (Some "MSFT") game_session = (Ok (Value PNone), game_session).
Proof.
  exact (stock_lookup_after_create (Stocks__init__ "MSFT" "Microsoft" (PInt 50) (PInt 400))
           game_session (mkBody (Some "niko") (Some "MSFT") (PInt 3))
           eq_refl eq_refl eq_refl eq_refl eq_refl eq_refl eq_refl _ _ eq_refl).
Defined.

(** A second stock under a symbol already in use is stored, and never found by
    its symbol. *)
Example stock_lookup_shadowed :
  let s1 := snd (Stocks_create (Stocks__init__ "AAPL" "Apple, again" (PInt 7) (PInt 999))
                   game_session) in
  List.length (stocks (committed s1)) = 2%nat
  /\ Stocks_get_price (mkBody None (Some "AAPL") PNone) s1 = (Ok (Value (PInt 150)), s1).
Proof. split; reflexivity. Qed.

(** [add_stockuser] for a user without a balance record stores one. *)
Lemma add_stockuser_stores (today : date) (self user : User) (uid : string) (s : Session) :
  clean s ->
  integrity (committed s) = true ->
  find (fun u => String.eqb (User__uid u) uid) (users (committed s)) = Some user ->
  User_stock_user (committed s) user = None ->
  let d := committed s in
  let new := mkStockUser (Some (next_id (map StockUser_id (stockuser d))))
               uid (PInt 100000) today in
  let d' := mkDB (users d) (sections d) (user_sections d) (stocks d)
              (stockuser d ++ [new]) (stock_transactions d) (user_transaction_stocks d) in
  User_add_stockuser today self uid s = (Ok tt, mkSession d' d' (generation s))
  /\ integrity d' = true
  /\ find (fun r => String.eqb (StockUser__user_id r) uid) (stockuser d) = None.
Proof.
  intros Hclean Hint Hu Hsu. cbv zeta. pose proof Hclean as Hw. unfold clean in Hw.
  pose proof (find_some _ _ Hu) as [_ Huid]. apply String.eqb_eq in Huid.
  assert (Hok : integrity
                  (mkDB (users (committed s)) (sections (committed s))
                     (user_sections (committed s)) (stocks (committed s))
                     (stockuser (committed s) ++
                        [mkStockUser
                           (Some (next_id (map StockUser_id (stockuser (committed s)))))
                           uid (PInt 100000) today])
                     (stock_transactions (committed s))
                     (user_transaction_stocks (committed s))) = true).
  { pose proof (proj1 (integrity_iff _) Hint)
      as (H1 & H2 & H3 & H4 & H5 & H6 & [H7 H7'] & H8).
    apply integrity_iff. cbn [users sections user_sections stocks stockuser
      stock_transactions user_transaction_stocks].
    rewrite !map_app. simpl. repeat split; try assumption; try tauto.
    - now apply pk_ok_fresh.
    - rewrite forallb_app, H7'. reflexivity. }
  split; [| split].
  - unfold User_add_stockuser, bind, get_db. rewrite Hw, Hu, Hsu. simpl.
    unfold User_uid. rewrite Huid, session_add_StockUser. cbv zeta. rewrite Hw.
    unfold commit. cbn [working committed generation]. rewrite Hok. reflexivity.
  - exact Hok.
  - unfold User_stock_user in Hsu. rewrite Huid in Hsu. exact Hsu.
Qed.

(** X11: before [add_stockuser] a user's balance reads [None]; after it, the
    balance reads 100000 and [get_userid] answers with the id of the new
    record. *)
Theorem balance_after_add_stockuser (today : date) (self user : User) (uid : string)
    (s : Session) (body : Body) :
  clean s ->
  integrity (committed s) = true ->
  find (fun u => String.eqb (User__uid u) uid) (users (committed s)) = Some user ->
  User_stock_user (committed s) user = None ->
  body_uid body = Some uid ->
  forall r s1,
    User_add_stockuser today self uid s = (r, s1) ->
    StockUser_get_balance body s = (Ok (Value PNone), s)
    /\ StockUser_get_balance body s1 = (Ok (Value (PInt 100000)), s1)
    /\ StockUser_get_userid (Some uid) s1
       = (Ok (Value (PInt (next_id (map StockUser_id (stockuser (committed s)))))), s1).
Proof.
  intros Hclean Hint Hu Hsu Hbody r s1 Hrun.
  destruct (add_stockuser_stores today self user uid s Hclean Hint Hu Hsu)
    as (Hrun' & _ & Hnone).
  rewrite Hrun' in Hrun. inversion Hrun; subst r s1. clear Hrun.
  rewrite !StockUser_get_balance_run, StockUser_get_userid_run, Hbody.
  cbn [working stockuser text_is]. rewrite Hclean, find_snoc, Hnone.
  cbn [StockUser__user_id]. rewrite String.eqb_refl. repeat split.
Qed.

Lemma balance_after_add_stockuser_witness :
  let body := mkBody (Some "toby") (Some "AAPL") (PInt 3) in
  let s1 := snd (User_add_stockuser a_day_in_march niko "toby" game_session) in
  StockUser_get_balance body game_session = (Ok (Value PNone), game_session)
  /\ StockUser_get_balance body s1 = (Ok (Value (PInt 100000)), s1)
  /\ StockUser_get_userid (Some "toby") s1 = (Ok (Value (PInt 2)), s1).
Proof.
  exact (balance_after_add_stockuser a_day_in_march niko toby "toby" game_session
           (mkBody (Some "toby") (Some "AAPL") (PInt 3))
           eq_refl eq_refl eq_refl eq_refl eq_refl _ _ eq_refl).
Defined.

(** *** The buy log *)

Lemma session_add_Transactions (today : date) (user_id : pyval) (type : string)
    (quantity date_arg : pyval) (s : Session) :
  session_add (Transactions__init__ today user_id type quantity date_arg) s =
    let held := mkTransactions
                  (Some (next_id (map Transactions_id (stock_transactions (working s)))))
                  user_id type quantity today in
    (Ok held,
     mkSession (committed s)
       (mkDB (users (working s)) (sections (working s)) (user_sections (working s))
          (stocks (working s)) (stockuser (working s))
          (stock_transactions (working s) ++ [held])
          (user_transaction_stocks (working s)))
       (generation s)).
Proof.
  unfold session_add. simpl.
  rewrite (existsb_const_false _ (stock_transactions (working s))) by reflexivity.
  reflexivity.
Qed.

(** The rows with one more transaction. *)
Lemma integrity_new_transaction (d : DB) (user_id : pyval) (type : string)
    (quantity : pyval) (today : date) :
  integrity d = true ->
  integrity
    (mkDB (users d) (sections d) (user_sections d) (stocks d) (stockuser d)
       (stock_transactions d ++
          [mkTransactions (Some (next_id (map Transactions_id (stock_transactions d))))
             user_id type quantity today])
       (user_transaction_stocks d))
  = is_not_None user_id && is_not_None quantity.
Proof.
  intros Hint.
  pose proof (proj1 (integrity_iff _) Hint) as (H1 & H2 & H3 & H4 & H5 & H6 & H7 & H8).
  pose proof (proj1 (integrity_tail_iff _) H8) as (T1 & T2 & T3 & T4).
  destruct (is_not_None user_id && is_not_None quantity) eqn:Hnn.
  - apply integrity_iff. cbn [users sections user_sections stocks stockuser
      stock_transactions user_transaction_stocks].
    repeat split; try assumption; try tauto.
    apply (integrity_tail_iff
             (mkDB [] [] [] [] [] _ (user_transaction_stocks d))).
    cbn [stock_transactions user_transaction_stocks].
    rewrite map_app. simpl. repeat split; try assumption.
    + now apply pk_ok_fresh.
    + rewrite forallb_app, T2. simpl. now rewrite Hnn.
  - apply (integrity_false_iff _ (is_not_None user_id && is_not_None quantity = true)).
    + intros H. apply integrity_iff in H.
      destruct H as (_ & _ & _ & _ & _ & _ & _ & H).
      apply (integrity_tail_iff
               (mkDB [] [] [] [] [] _ (user_transaction_stocks d))) in H.
      cbn [stock_transactions user_transaction_stocks] in H.
      destruct H as (_ & H & _). rewrite forallb_app in H.
      apply andb_true_iff in H. destruct H as [_ H]. simpl in H.
      now rewrite andb_true_r in H.
    + rewrite Hnn. discriminate.
Qed.

Lemma createlog_buy_run (today : date) (body : Body) (s : Session) (account : StockUser) :
  clean s ->
  integrity (committed s) = true ->
  find (fun r => text_is (StockUser__user_id r) (body_uid body)) (stockuser (committed s))
    = Some account ->
  let d := committed s in
  let tid := next_id (map Transactions_id (stock_transactions d)) in
  let new := mkTransactions (Some tid) (of_option_Z (StockUser_id account)) "buy"
               (body_quantity body) today in
  let d' := mkDB (users d) (sections d) (user_sections d) (stocks d) (stockuser d)
              (stock_transactions d ++ [new]) (user_transaction_stocks d) in
  integrity d' = is_not_None (body_quantity body)
  /\ Transactions_createlog_buy today body s =
       if is_not_None (body_quantity body)
       then (Ok (Value (PInt tid)), mkSession d' d' (generation s))
       else (Ok (Error500 "account has not been autocreated for stock game"),
             mkSession d d' (generation s)).
Proof.
  intros Hclean Hint Hfind. cbv zeta. pose proof Hclean as Hw. unfold clean in Hw.
  assert (Hid : is_not_None (of_option_Z (StockUser_id account)) = true).
  { apply of_option_Z_some. apply find_some in Hfind. destruct Hfind as [Hin _].
    apply integrity_iff in Hint. destruct Hint as (_ & _ & _ & _ & _ & _ & [H _] & _).
    exact (stored_has_id StockUser_id _ account H Hin). }
  pose proof (integrity_new_transaction (committed s) (of_option_Z (StockUser_id account))
                "buy" (body_quantity body) today Hint) as Hnew.
  rewrite Hid in Hnew. simpl in Hnew. split; [exact Hnew |].
  unfold Transactions_createlog_buy, try_except, bind, get_db.
  rewrite Hw, Hfind, session_add_Transactions. cbv zeta. rewrite Hw.
  unfold commit. cbn [working committed generation]. rewrite Hnew.
  destruct (is_not_None (body_quantity body)); reflexivity.
Qed.

(** X12, for a quantity that is [None] or an integer the column can hold,
    and a next transaction id in range:
    [createlog_buy] answers with the error when the uid has no balance
    record, and stores nothing.  With a balance record and a quantity it stores
    one 'buy' transaction of that account, dated today, and answers with its
    id.  With a balance record and no quantity it answers with the same error
    and the committed rows are as before; no rollback is made, and the next
    commit on the session raises. *)
Theorem createlog_buy_needs_account (today : date) (body : Body) (s : Session) :
  clean s ->
  integrity (committed s) = true ->
  integer_or_None (body_quantity body) = true ->
  next_id (map Transactions_id (stock_transactions (committed s))) < 2 ^ 63 ->
  let d := committed s in
  match find (fun r => text_is (StockUser__user_id r) (body_uid body)) (stockuser d) with
  | None =>
      Transactions_createlog_buy today body s
      = (Ok (Error500 "account has not been autocreated for stock game"), s)
  | Some account =>
      let tid := next_id (map Transactions_id (stock_transactions d)) in
      let new := mkTransactions (Some tid) (of_option_Z (StockUser_id account)) "buy"
                   (body_quantity body) today in
      let d' := mkDB (users d) (sections d) (user_sections d) (stocks d) (stockuser d)
                  (stock_transactions d ++ [new]) (user_transaction_stocks d) in
      if is_not_None (body_quantity body)
      then Transactions_createlog_buy today body s
           = (Ok (Value (PInt tid)), mkSession d' d' (generation s))
      else exists s1,
             Transactions_createlog_buy today body s
             = (Ok (Error500 "account has not been autocreated for stock game"), s1)
             /\ committed s1 = committed s
             /\ exists e, commit s1 = (Raise e, s1)
  end.
Proof.
  intros Hclean Hint _ _. cbv zeta.
  destruct (find _ (stockuser (committed s))) as [account |] eqn:Hfind.
  - destruct (createlog_buy_run today body s account Hclean Hint Hfind) as [Hnew Hrun].
    rewrite Hrun. destruct (is_not_None (body_quantity body)); [reflexivity |].
    eexists. split; [reflexivity |]. split; [reflexivity |].
    exists IntegrityError. unfold commit. cbn [working]. rewrite Hnew. reflexivity.
  - unfold Transactions_createlog_buy, try_except, bind, get_db.
    rewrite Hclean, Hfind. reflexivity.
Qed.

Lemma createlog_buy_needs_account_witness :
  Transactions_createlog_buy a_day_in_march (mkBody (Some "niko") (Some "AAPL") (PInt 3))
    game_session
  = (Ok (Value (PInt 1)),
     let d' := mkDB [toby; niko] [CSA; CSP; Robotics] (user_sections test_db) [AAPL]
                 [niko_account]
                 [mkTransactions (Some 1) (PInt 1) "buy" (PInt 3) a_day_in_march] [] in
     mkSession d' d' 0).
Proof.
  exact (createlog_buy_needs_account a_day_in_march
           (mkBody (Some "niko") (Some "AAPL") (PInt 3)) game_session eq_refl eq_refl
           eq_refl eq_refl).
Defined.

Example createlog_buy_without_account :
  Transactions_createlog_buy a_day_in_march (mkBody (Some "toby") (Some "AAPL") (PInt 3))
    game_session
  = (Ok (Error500 "account has not been autocreated for stock game"), game_session).
Proof. reflexivity. Qed.






Example multilog_buy_unknown_transaction :
  User_Transaction_Stocks_multilog_buy (mkBody (Some "niko") (Some "AAPL") (PInt 3))
    (PInt 450) 7 game_session
  = (Ok tt, game_session).
Proof. reflexivity. Qed.




(** ** Reading the sections *)



(** ** The masked password *)

Lemma substring_0_length (n : nat) (h : string) :
  (String.length (substring 0 n h) <= n)%nat.
Proof.
  revert h. induction n as [| n IH]; intros h.
  - destruct h; simpl; lia.
  - destruct h as [| c h]; simpl; [lia |]. specialize (IH h). lia.
Qed.

Lemma substring_0_prefix (n : nat) (h : string) :
  String.prefix (substring 0 n h) h = true.
Proof.
  revert h. induction n as [| n IH]; intros h.
  - destruct h; reflexivity.
  - destruct h as [| c h]; simpl; [reflexivity |].
    destruct (Ascii.ascii_dec c c); [apply IH | congruence].
Qed.

Lemma length_app_string (a b : string) :
  String.length (a ++ b) = (String.length a + String.length b)%nat.
Proof. induction a as [| c a IH]; simpl; [reflexivity | now rewrite IH]. Qed.

(** X16: the [password] getter, in both models, shows a prefix of the stored
    hash of at most 10 characters followed by three dots, so never more than 13
    characters. *)
Theorem password_shows_ten_characters (u : User) (o : users_py.User) :
  (exists shown,
     User_password u = (shown ++ "...")%string
     /\ String.prefix shown (User__password u) = true
     /\ (String.length shown <= 10)%nat
     /\ (String.length (User_password u) <= 13)%nat)
  /\ (exists shown,
        users_py.User_password o = (shown ++ "...")%string
        /\ String.prefix shown (users_py.User__password o) = true
        /\ (String.length shown <= 10)%nat
        /\ (String.length (users_py.User_password o) <= 13)%nat).
Proof.
  split.
  - exists (substring 0 10 (User__password u)). unfold User_password.
    pose proof (substring_0_length 10 (User__password u)).
    repeat split; auto using substring_0_prefix.
    rewrite length_app_string. simpl. lia.
  - exists (substring 0 10 (users_py.User__password o)). unfold users_py.User_password.
    pose proof (substring_0_length 10 (users_py.User__password o)).
    repeat split; auto using substring_0_prefix.
    rewrite length_app_string. simpl. lia.
Qed.

Example password_of_toby : User_password toby = "pbkdf2:sha...".
Proof. reflexivity. Qed.

(** ** add_stockuser, once more *)

(** X17: a second [add_stockuser] for the same uid, by whoever and whenever,
    changes nothing: the method never stores a second balance record for a
    uid. *)
Theorem add_stockuser_again_changes_nothing (today later : date) (self other : User)
    (uid : string) (s : Session) :
  clean s ->
  integrity (committed s) = true ->
  forall r s1,
    User_add_stockuser today self uid s = (r, s1) ->
    User_add_stockuser later other uid s1 = (Ok tt, s1).
Proof.
  intros Hclean Hint r s1 Hrun. pose proof Hclean as Hw. unfold clean in Hw.
  destruct (find (fun u => String.eqb (User__uid u) uid) (users (committed s)))
    as [user |] eqn:Hu.
  - destruct (User_stock_user (committed s) user) as [su |] eqn:Hsu.
    + assert (E : forall day who, User_add_stockuser day who uid s = (Ok tt, s)).
      { intros day who. unfold User_add_stockuser, bind, get_db.
        rewrite Hw, Hu, Hsu. reflexivity. }
      rewrite E in Hrun. inversion Hrun; subst. apply E.
    + destruct (add_stockuser_stores today self user uid s Hclean Hint Hu Hsu)
        as (Hrun' & _ & Hnone).
      rewrite Hrun' in Hrun. inversion Hrun; subst r s1. clear Hrun.
      pose proof (find_some _ _ Hu) as [_ Huid]. apply String.eqb_eq in Huid.
      unfold User_add_stockuser, bind, get_db. cbn [working users]. rewrite Hu.
      unfold User_stock_user. cbn [stockuser]. rewrite find_snoc, Huid, Hnone.
      cbn [StockUser__user_id]. rewrite String.eqb_refl. reflexivity.
  - assert (E : forall day who, User_add_stockuser day who uid s = (Ok tt, s)).
    { intros day who. unfold User_add_stockuser, bind, get_db.
      rewrite Hw, Hu. reflexivity. }
    rewrite E in Hrun. inversion Hrun; subst. apply E.
Qed.

Lemma add_stockuser_again_changes_nothing_witness :
  let s1 := snd (User_add_stockuser a_day_in_march niko "toby" game_session) in
  User_add_stockuser a_day_in_july toby "toby" s1 = (Ok tt, s1).
Proof.
  exact (add_stockuser_again_changes_nothing a_day_in_march a_day_in_july niko toby "toby"
           game_session eq_refl eq_refl _ _ eq_refl).
Defined.

Example createlog_buy_without_quantity :
  let r := Transactions_createlog_buy a_day_in_march (mkBody (Some "niko") (Some "AAPL") PNone)
             game_session in
  fst r = Ok (Error500 "account has not been autocreated for stock game")
  /\ committed (snd r) = game_db.
Proof. repeat split. Qed.
